(** * LinkPlace points ledger

    A shallow embedding of the two places where the repository keeps
    points:

    - [Api]: the prototype endpoints of
      [app/api/v1/endpoints/points.py] (phase 1.5), which keep balances
      and transactions in two module-level dictionaries;
    - [Model]: the ORM entity [PointTransaction] of
      [app/models/point_transaction.py] (phase 1).

    Python integers are unbounded, so every amount is a [Z].  The
    dictionaries are finite maps; an endpoint is a function from the
    store to the store after the call together with either its
    response or the [HTTPException] it raised. *)

From Stdlib Require Import ZArith Lia.
From stdpp Require Import gmap strings list fin_maps pretty sorting.

Local Open Scope Z_scope.

(** Outcome of a call that may raise. *)
Inductive result (E A : Type) : Type :=
| Ok (a : A)
| Err (e : E).
Arguments Ok {E A} a.
Arguments Err {E A} e.

(** Python's [x or d] on an optional string: [None] and the empty
    string are both falsy. *)
Definition str_or (x : option string) (d : string) : string :=
  match x with
  | Some (String c r) => String c r
  | _ => d
  end.

(** ** Phase 1.5: the endpoints over the in-memory dictionaries *)
Module Api.

(** [datetime.now().isoformat()] is stored wherever the code keeps a
    time.  A stamp is the instant in microseconds that the stored text
    renders; the clock is an input of every call that reads it, and
    the readings taken within one call are identified. *)
Definition stamp := Z.

Definition timedelta (days : Z) : Z := days * 86400000000.

(** An entry of [fake_points_db]. *)
Record Balance := mkBalance {
  user_email : string;
  total_points : Z;
  available_points : Z;
  pending_points : Z;
  used_points : Z;
  expired_points : Z;
  last_updated : stamp
}.

(** An entry of [fake_transactions_db]. *)
Record Transaction := mkTransaction {
  id : Z;
  owner_email : string;          (* key "user_email" *)
  transaction_type : string;
  points : Z;
  source : string;
  source_id : Z;
  description : string;
  status : string;
  expires_at : option stamp;
  created_at : stamp
}.

(** [app/schemas/points.py] *)
Record PointCreate := mkPointCreate {
  pc_points : Z;
  pc_source : string;
  pc_source_id : Z;
  pc_description : option string
}.

Record PointResponse := mkPointResponse {
  transaction_id : Z;
  message : string;
  resp_points : Z;
  new_balance : Z
}.

Inductive HTTPException :=
| HTTP_400_BAD_REQUEST (detail : string)
| HTTP_404_NOT_FOUND (detail : string).

(** The two errors of the ledger as the endpoints raise them. *)
Definition InsufficientPoints : HTTPException :=
  HTTP_400_BAD_REQUEST "Insufficient points".
Definition NotPending : HTTPException :=
  HTTP_400_BAD_REQUEST "Transaction is not pending".
Definition EntryNotFound : HTTPException :=
  HTTP_404_NOT_FOUND "Transaction not found".

(** What an endpoint returns. *)
Inductive reply :=
| RBalance (b : Balance)
| RPoint (r : PointResponse)
| RMessage (m : string).

(** The two module-level dictionaries. *)
Record Store := mkStore {
  fake_points_db : gmap string Balance;
  fake_transactions_db : gmap Z Transaction
}.

Definition outcome : Type := Store * result HTTPException reply.

(** The dictionaries as the module creates them when it is loaded at
    instant [t0]. *)
Definition initial_points_db (t0 : stamp) : gmap string Balance :=
  <["admin@linkplace.com" :=
      mkBalance "admin@linkplace.com" 1500 1200 300 800 0 t0]>
  (<["user1@example.com" :=
      mkBalance "user1@example.com" 850 650 200 350 50 t0]> ∅).

Definition initial_transactions_db (t0 : stamp) : gmap Z Transaction :=
  <[1 := mkTransaction 1 "admin@linkplace.com" "earned" 500
           "review_write" 1 "리뷰 작성으로 포인트 적립" "completed"
           (Some (t0 + timedelta 365)) t0]>
  (<[2 := mkTransaction 2 "admin@linkplace.com" "used" (-200)
           "coupon_purchase" 10 "쿠폰 구매로 포인트 사용" "completed"
           None (t0 - timedelta 1)]>
  (<[3 := mkTransaction 3 "user1@example.com" "earned" 300
           "campaign_participate" 5 "캠페인 참여로 포인트 적립" "pending"
           (Some (t0 + timedelta 30)) t0]> ∅)).

Definition initial_store (t0 : stamp) : Store :=
  mkStore (initial_points_db t0) (initial_transactions_db t0).

(** The balance a user without a record gets. *)
Definition zero_balance (current_user : string) (now : stamp) : Balance :=
  mkBalance current_user 0 0 0 0 0 now.

(** [max(fake_transactions_db.keys())], [None] on the empty dictionary. *)
Definition max_key (m : gmap Z Transaction) : option Z :=
  match (map_to_list m).*1 with
  | [] => None
  | k :: ks => Some (foldr Z.max k ks)
  end.

(** [max(fake_transactions_db.keys()) + 1 if fake_transactions_db else 1] *)
Definition new_id (m : gmap Z Transaction) : Z :=
  match max_key m with
  | Some k => k + 1
  | None => 1
  end.

(** [GET /balance] *)
Definition get_point_balance (current_user : string) (now : stamp)
    (s : Store) : outcome :=
  match fake_points_db s !! current_user with
  | Some balance => (s, Ok (RBalance balance))
  | None =>
      let balance := zero_balance current_user now in
      (mkStore (<[current_user := balance]> (fake_points_db s))
               (fake_transactions_db s),
       Ok (RBalance balance))
  end.

(** [POST /earn] *)
Definition earn_points (point_data : PointCreate) (current_user : string)
    (now : stamp) (s : Store) : outcome :=
  let new_id := new_id (fake_transactions_db s) in
  let new_transaction :=
    mkTransaction new_id current_user "earned" (pc_points point_data)
      (pc_source point_data) (pc_source_id point_data)
      (str_or (pc_description point_data)
              (pc_source point_data +:+ "로 포인트 적립"))
      "pending" (Some (now + timedelta 365)) now in
  let transactions := <[new_id := new_transaction]> (fake_transactions_db s) in
  let balance :=
    match fake_points_db s !! current_user with
    | Some b => b
    | None => zero_balance current_user now
    end in
  let balance' :=
    mkBalance (user_email balance) (total_points balance)
      (available_points balance)
      (pending_points balance + pc_points point_data)
      (used_points balance) (expired_points balance) now in
  (mkStore (<[current_user := balance']> (fake_points_db s)) transactions,
   Ok (RPoint (mkPointResponse new_id
                 "포인트가 적립 요청되었습니다. 검토 후 승인됩니다."
                 (pc_points point_data)
                 (available_points balance' + pending_points balance')))).

(** [POST /use] *)
Definition use_points (point_data : PointCreate) (current_user : string)
    (now : stamp) (s : Store) : outcome :=
  match fake_points_db s !! current_user with
  | None => (s, Err InsufficientPoints)
  | Some balance =>
      if bool_decide (available_points balance < pc_points point_data)
      then (s, Err InsufficientPoints)
      else
        let new_id := new_id (fake_transactions_db s) in
        let new_transaction :=
          mkTransaction new_id current_user "used" (- pc_points point_data)
            (pc_source point_data) (pc_source_id point_data)
            (str_or (pc_description point_data)
                    (pc_source point_data +:+ "로 포인트 사용"))
            "completed" None now in
        let balance' :=
          mkBalance (user_email balance) (total_points balance)
            (available_points balance - pc_points point_data)
            (pending_points balance)
            (used_points balance + pc_points point_data)
            (expired_points balance) now in
        (mkStore (<[current_user := balance']> (fake_points_db s))
                 (<[new_id := new_transaction]> (fake_transactions_db s)),
         Ok (RPoint (mkPointResponse new_id "포인트가 사용되었습니다."
                       (pc_points point_data) (available_points balance'))))
  end.

Definition set_status (t : Transaction) (st : string) : Transaction :=
  mkTransaction (id t) (owner_email t) (transaction_type t) (points t)
    (source t) (source_id t) (description t) st (expires_at t) (created_at t).

Definition append_description (t : Transaction) (x : string) : Transaction :=
  mkTransaction (id t) (owner_email t) (transaction_type t) (points t)
    (source t) (source_id t) (description t +:+ x) (status t) (expires_at t)
    (created_at t).

(** The balance update of an approval. *)
Definition credit (b : Balance) (p : Z) (now : stamp) : Balance :=
  mkBalance (user_email b) (total_points b + p) (available_points b + p)
    (pending_points b - p) (used_points b) (expired_points b) now.

(** The balance update of a rejection. *)
Definition withdraw_pending (b : Balance) (p : Z) (now : stamp) : Balance :=
  mkBalance (user_email b) (total_points b) (available_points b)
    (pending_points b - p) (used_points b) (expired_points b) now.

(** The update both [approve_transaction] and [reject_transaction] make
    to the owner's balance: only for an "earned" transaction, and only
    when the owner has a balance. *)
Definition update_owner (f : Balance → Z → stamp → Balance)
    (t : Transaction) (now : stamp) (db : gmap string Balance)
    : gmap string Balance :=
  if bool_decide (transaction_type t = "earned") then
    match db !! owner_email t with
    | Some balance => <[owner_email t := f balance (points t) now]> db
    | None => db
    end
  else db.

(** [POST /approve/{transaction_id}] *)
Definition approve_transaction (transaction_id : Z) (current_user : string)
    (now : stamp) (s : Store) : outcome :=
  match fake_transactions_db s !! transaction_id with
  | None => (s, Err EntryNotFound)
  | Some transaction =>
      if bool_decide (status transaction ≠ "pending")
      then (s, Err NotPending)
      else
        (mkStore (update_owner credit transaction now (fake_points_db s))
                 (<[transaction_id := set_status transaction "completed"]>
                    (fake_transactions_db s)),
         Ok (RMessage "Transaction approved successfully"))
  end.

(** [POST /reject/{transaction_id}] *)
Definition reject_transaction (transaction_id : Z) (reason : string)
    (current_user : string) (now : stamp) (s : Store) : outcome :=
  match fake_transactions_db s !! transaction_id with
  | None => (s, Err EntryNotFound)
  | Some transaction =>
      if bool_decide (status transaction ≠ "pending")
      then (s, Err NotPending)
      else
        let transaction' :=
          append_description (set_status transaction "failed")
            (" (거부 사유: " +:+ reason +:+ ")") in
        (mkStore (update_owner withdraw_pending transaction now
                    (fake_points_db s))
                 (<[transaction_id := transaction']> (fake_transactions_db s)),
         Ok (RMessage "Transaction rejected successfully"))
  end.

(** A call of one of the endpoints that write, with its arguments and
    the clock reading it sees. *)
Inductive request :=
| GetBalance (current_user : string) (now : stamp)
| Earn (point_data : PointCreate) (current_user : string) (now : stamp)
| Use (point_data : PointCreate) (current_user : string) (now : stamp)
| Approve (transaction_id : Z) (current_user : string) (now : stamp)
| Reject (transaction_id : Z) (reason : string) (current_user : string)
         (now : stamp).

Definition handle (rq : request) (s : Store) : outcome :=
  match rq with
  | GetBalance u now => get_point_balance u now s
  | Earn pd u now => earn_points pd u now s
  | Use pd u now => use_points pd u now s
  | Approve i u now => approve_transaction i u now s
  | Reject i r u now => reject_transaction i r u now s
  end.

(** The store after a sequence of calls, first call first. *)
Definition run (rqs : list request) (s : Store) : Store :=
  foldl (λ st rq, (handle rq st).1) s rqs.

(** What [get_point_balance] reports of a user: the fields of the
    record, or zero for a user who has none yet. *)
Definition field_of (f : Balance → Z) (s : Store) (u : string) : Z :=
  from_option f 0 (fake_points_db s !! u).

(** *** Predicates on stores and requests *)

(** No balance is overdrawn. *)
Definition balances_nonneg (s : Store) : Prop :=
  ∀ u b, fake_points_db s !! u = Some b → 0 ≤ available_points b.

(** No credit that waits for approval is negative. *)
Definition pending_credits_nonneg (s : Store) : Prop :=
  ∀ i t, fake_transactions_db s !! i = Some t →
    status t = "pending" → transaction_type t = "earned" → 0 ≤ points t.

Definition solvent (s : Store) : Prop :=
  balances_nonneg s ∧ pending_credits_nonneg s.

(** The endpoints do not look at the sign of the amount; a request is
    [nonneg_earn] when it is not an earn request for a negative amount. *)
Definition nonneg_earn (rq : request) : Prop :=
  match rq with
  | Earn point_data _ _ => 0 ≤ pc_points point_data
  | _ => True
  end.

(** Every transaction that waits for approval is a credit, and its owner
    has a balance. *)
Definition pending_are_credits (s : Store) : Prop :=
  ∀ i t, fake_transactions_db s !! i = Some t → status t = "pending" →
    transaction_type t = "earned" ∧ is_Some (fake_points_db s !! owner_email t).

(** The stores the endpoints can bring about: the module as loaded at
    some instant, then any calls. *)
Definition reachable (s : Store) : Prop :=
  ∃ t0 rqs, s = run rqs (initial_store t0).

(** *** Sample values *)

(** A user with nothing to spend, and a request to spend 50. *)
Definition empty_handed : Store :=
  mkStore {[ "u" := zero_balance "u" 0 ]} ∅.
Definition coupon_for_50 : PointCreate :=
  mkPointCreate 50 "coupon" 1 (Some "x").

(** 500 points for a review. *)
Definition review_for_500 : PointCreate :=
  mkPointCreate 500 "review" 1 (Some "...").

(** Transaction 3 of the store as loaded at instant 0. *)
Definition transaction_3 : Transaction :=
  mkTransaction 3 "user1@example.com" "earned" 300 "campaign_participate" 5
    "캠페인 참여로 포인트 적립" "pending" (Some (0 + timedelta 30)) 0.

(** An earn request for -100 points by a new user, then its approval. *)
Definition overdraft_requests : list request :=
  [ Earn (mkPointCreate (-100) "review" 1 None) "eve@example.com" 10;
    Approve 4 "admin@linkplace.com" 11 ].

(** A day of requests against the store as loaded. *)
Definition sample_requests : list request :=
  [ Earn (mkPointCreate 500 "review" 1 None) "user1@example.com" 10;
    Approve 4 "admin@linkplace.com" 11;
    Use (mkPointCreate 1150 "coupon_purchase" 2 None) "user1@example.com" 12;
    Reject 3 "duplicate" "admin@linkplace.com" 13 ].

(** *** The ledger as a whole *)

(** The user whose balance a call can write: the caller for a read, an
    earn or a spend, the owner of the transaction for an approval or a
    rejection. *)
Definition written_user (rq : request) (s : Store) : option string :=
  match rq with
  | GetBalance u _ | Earn _ u _ | Use _ u _ => Some u
  | Approve i _ _ | Reject i _ _ _ =>
      owner_email <$> fake_transactions_db s !! i
  end.

(** What a transaction adds to the credits of [u] that wait for
    approval. *)
Definition pending_weight (u : string) (t : Transaction) : Z :=
  if bool_decide (owner_email t = u ∧ status t = "pending" ∧
                  transaction_type t = "earned")
  then points t else 0.

(** The points of all credits of [u] that wait for approval. *)
Definition pending_total (m : gmap Z Transaction) (u : string) : Z :=
  map_fold (λ _ t acc, pending_weight u t + acc) 0 m.

(** Every transaction is filed under its id, is a credit or a spending,
    is pending, completed or failed, and a spending is completed; every
    balance is filed under its user. *)
Definition well_filed (s : Store) : Prop :=
  (∀ i t, fake_transactions_db s !! i = Some t →
     id t = i ∧
     (transaction_type t = "earned" ∨
      transaction_type t = "used" ∧ status t = "completed") ∧
     (status t = "pending" ∨ status t = "completed" ∨ status t = "failed")) ∧
  (∀ u b, fake_points_db s !! u = Some b → user_email b = u).

(** The five counters of a user as [get_point_balance] reports them:
    total, available, pending, used, expired. *)
Definition counters (s : Store) (u : string) : Z * Z * Z * Z * Z :=
  (field_of total_points s u, field_of available_points s u,
   field_of pending_points s u, field_of used_points s u,
   field_of expired_points s u).

(** *** The read-only endpoints

    A dictionary is enumerated in the order of insertion, which the
    finite map does not keep: the enumeration [values] is taken as
    given, and what is proved of these endpoints holds for every
    enumeration that lists each entry of the dictionary once.
    [date_text] is the part of the stored text of an instant before
    its "T".  The stored texts are ordered as their instants are.
    Instants are counted from [datetime.min]. *)
Record PointHistory := mkPointHistory {
  h_transactions : list Transaction;
  h_total : Z;
  h_page : Z;
  h_size : Z;
  h_pages : Z
}.

(** What the arithmetic of [datetime] and [timedelta] raises out of
    range. *)
Inductive PyError := OverflowError.

(** The days a [timedelta] can hold. *)
Definition timedelta_days_ok (days : Z) : bool :=
  bool_decide (-999999999 ≤ days ≤ 999999999).

(** The instants a [datetime] can hold: from [datetime.min] up to, and
    not including, the end of the year 9999. *)
Definition datetime_ok (x : stamp) : bool :=
  bool_decide (0 ≤ x < timedelta 3652059).

Record Expiring := mkExpiring {
  total_expiring_points : Z;
  expiring_transactions : list Transaction;
  expires_within_days : Z
}.

(** [l[a:b]] for [0 <= a <= b]. *)
Definition slice {A} (l : list A) (a b : Z) : list A :=
  take (Z.to_nat (b - a)) (drop (Z.to_nat a) l).

(** One step of a stable sort, newest first: [x], which stood before
    all of [l], goes before the first entry that is not newer. *)
Fixpoint insert_newest (x : Transaction) (l : list Transaction)
    : list Transaction :=
  match l with
  | [] => [x]
  | y :: l' =>
      if bool_decide (created_at y ≤ created_at x) then x :: y :: l'
      else y :: insert_newest x l'
  end.

(** [l.sort(key=lambda x: x["created_at"], reverse=True)] *)
Definition newest_first (l : list Transaction) : list Transaction :=
  foldr insert_newest [] l.

(** [if q: l = [t for t in l if P(q, t)]]: a filter that is applied only
    when its query parameter is given and not empty. *)
Definition filter_if (q : option string) (P : string → Transaction → bool)
    (l : list Transaction) : list Transaction :=
  match q with
  | Some (String c r) => filter (λ t, P (String c r) t = true) l
  | _ => l
  end.

(** [t] passes the filter of a query parameter: the parameter is not
    given, or is empty, or [P] holds of it and [t]. *)
Definition passes (q : option string) (P : string → Transaction → bool)
    (t : Transaction) : Prop :=
  match q with
  | Some (String c r) => P (String c r) t = true
  | _ => True
  end.

(** [a] may stand before [b] in a list that is newest first. *)
Definition not_older (a b : Transaction) : Prop :=
  created_at b ≤ created_at a.

Section Queries.
Variable values : gmap Z Transaction → list Transaction.
Variable date_text : stamp → string.

(** The transactions [get_point_history] selects, before they are
    sorted and cut into pages. *)
Definition history_matches (current_user : string)
    (q_type q_source q_status start_date end_date : option string)
    (s : Store) : list Transaction :=
  let transactions :=
    filter (λ t, owner_email t = current_user)
           (values (fake_transactions_db s)) in
  let transactions :=
    filter_if q_type (λ x t, bool_decide (transaction_type t = x))
      transactions in
  let transactions :=
    filter_if q_source (λ x t, bool_decide (source t = x)) transactions in
  let transactions :=
    filter_if q_status (λ x t, bool_decide (status t = x)) transactions in
  let transactions :=
    filter_if start_date (λ x t, String.leb x (date_text (created_at t)))
      transactions in
  filter_if end_date (λ x t, String.leb (date_text (created_at t)) x)
    transactions.

(** [GET /history]; the framework admits [page >= 1] and
    [1 <= size <= 100] only. *)
Definition get_point_history (current_user : string)
    (q_type q_source q_status start_date end_date : option string)
    (page size : Z) (s : Store) : PointHistory :=
  let transactions :=
    newest_first (history_matches current_user q_type q_source q_status
                    start_date end_date s) in
  let start_idx := (page - 1) * size in
  let end_idx := start_idx + size in
  mkPointHistory (slice transactions start_idx end_idx)
    (Z.of_nat (length transactions)) page size
    ((Z.of_nat (length transactions) + size - 1) `div` size).

(** The condition under which [get_expiring_points] lists a
    transaction; a transaction without expiry is never listed. *)
Definition expires_by (current_user : string) (cutoff_date : stamp)
    (t : Transaction) : bool :=
  bool_decide (owner_email t = current_user) &&
  bool_decide (transaction_type t = "earned") &&
  bool_decide (status t = "completed") &&
  match expires_at t with
  | Some e => bool_decide (e ≤ cutoff_date)
  | None => false
  end.

(** [GET /expiring]; building the [timedelta] and adding it to the
    clock raise [OverflowError] out of range. *)
Definition get_expiring_points (current_user : string) (days : Z)
    (now : stamp) (s : Store) : result PyError Expiring :=
  if timedelta_days_ok days && datetime_ok (now + timedelta days) then
    let cutoff_date := now + timedelta days in
    let expiring_transactions :=
      filter (λ t, expires_by current_user cutoff_date t = true)
             (values (fake_transactions_db s)) in
    Ok (mkExpiring (foldr Z.add 0 (points <$> expiring_transactions))
          expiring_transactions days)
  else Err OverflowError.

End Queries.

(** An entry of [monthly_stats]. *)
Record Monthly := mkMonthly {
  earned : Z;
  used : Z
}.

Record Stats := mkStats {
  monthly_stats : gmap string Monthly;
  source_stats : gmap string Z;
  total_transactions : Z
}.

(** [t] is a credit that has been approved. *)
Definition is_credited (t : Transaction) : bool :=
  bool_decide (transaction_type t = "earned") &&
  bool_decide (status t = "completed").

(** What one transaction adds to the entry of its month. *)
Definition count_month (t : Transaction) (cur : Monthly) : Monthly :=
  if is_credited t then mkMonthly (earned cur + points t) (used cur)
  else if bool_decide (transaction_type t = "used")
       then mkMonthly (earned cur) (used cur + Z.abs (points t))
       else cur.

(** One turn of the second loop of [get_point_stats]. *)
Definition source_step (acc : gmap string Z) (t : Transaction)
    : gmap string Z :=
  if is_credited t
  then <[source t := default 0 (acc !! source t) + points t]> acc
  else acc.

Section Statistics.
Variable values : gmap Z Transaction → list Transaction.
(** [month_text x] is the first seven characters of the stored text
    of the instant [x]. *)
Variable month_text : stamp → string.

(** One turn of the first loop of [get_point_stats]: the entry of the
    month is created with two zeros if it is not there, then
    written. *)
Definition monthly_step (acc : gmap string Monthly) (t : Transaction)
    : gmap string Monthly :=
  let month_key := month_text (created_at t) in
  <[month_key := count_month t (default (mkMonthly 0 0) (acc !! month_key))]>
    acc.

(** [GET /stats] *)
Definition get_point_stats (current_user : string) (s : Store) : Stats :=
  let user_transactions :=
    filter (λ t, owner_email t = current_user)
           (values (fake_transactions_db s)) in
  mkStats (foldl monthly_step ∅ user_transactions)
          (foldl source_step ∅ user_transactions)
          (Z.of_nat (length user_transactions)).

End Statistics.

(** The sum of [w] over the transactions of [l] that [P] holds of. *)
Definition total_where (w : Transaction → Z) (P : Transaction → bool)
    (l : list Transaction) : Z :=
  foldr Z.add 0 (w <$> filter (λ t, P t = true) l).

(** The sum of [w] over the values of a dictionary. *)
Definition weighted_sum {V} (w : V → Z) (m : gmap string V) : Z :=
  map_fold (λ _ v acc, w v + acc) 0 m.

(** [t] is a credit of [u] that has been approved. *)
Definition credited_to (u : string) (t : Transaction) : bool :=
  bool_decide (owner_email t = u) && is_credited t.

(** [t] is a spending of [u]. *)
Definition spent_by (u : string) (t : Transaction) : bool :=
  bool_decide (owner_email t = u) && negb (is_credited t) &&
  bool_decide (transaction_type t = "used").

(** The month of every instant, for the examples. *)
Definition sample_month (x : stamp) : string := "2025-09".

(** The enumeration of a dictionary by its finite map. *)
Definition map_values (m : gmap Z Transaction) : list Transaction :=
  (map_to_list m).*2.

(** [values] lists every entry of the dictionary once. *)
Definition enumerates (values : gmap Z Transaction → list Transaction)
    : Prop :=
  ∀ m, values m ≡ₚ map_values m.

(** The date of every instant, for the examples. *)
Definition sample_date (x : stamp) : string := "2025-09-15".

(** Transaction 1 of the store as loaded at instant 0. *)
Definition transaction_1 : Transaction :=
  mkTransaction 1 "admin@linkplace.com" "earned" 500 "review_write" 1
    "리뷰 작성으로 포인트 적립" "completed" (Some (0 + timedelta 365)) 0.

End Api.

(** ** Phase 1: the ORM entity [PointTransaction] *)
Module Model.

Inductive TransactionType :=
| EARNED | SPENT | REFUNDED | EXPIRED | ADJUSTED | BONUS | PENALTY.

Inductive TransactionSource :=
| CAMPAIGN | REVIEW | REFERRAL | PURCHASE | SIGNUP | DAILY_CHECKIN
| EVENT | ADMIN | SOCIAL_SHARE | BIRTHDAY | EXPIRATION | OTHER.

Inductive TransactionStatus :=
| PENDING | COMPLETED | FAILED | CANCELLED | REVERSED.

#[global] Instance TransactionType_eq_dec : EqDecision TransactionType.
Proof. solve_decision. Defined.
#[global] Instance TransactionStatus_eq_dec : EqDecision TransactionStatus.
Proof. solve_decision. Defined.

(** The exceptions the methods below can raise, both from
    [datetime.replace]: [OverflowError] for an argument that does not
    fit the C [int] it is converted to, [ValueError] for one that does
    and is out of range. *)
Inductive exn := ValueError | OverflowError.

(** *** The part of [datetime] the entity uses *)

Record datetime := mkDatetime {
  year : Z; month : Z; day : Z;
  hour : Z; minute : Z; second : Z; microsecond : Z
}.

Definition is_leap (y : Z) : bool :=
  (y mod 4 =? 0) && (negb (y mod 100 =? 0) || (y mod 400 =? 0)).

(** Days of month [m] of year [y]; 0 for a month that does not exist. *)
Definition days_in_month (y m : Z) : Z :=
  match m with
  | 1 | 3 | 5 | 7 | 8 | 10 | 12 => 31
  | 4 | 6 | 9 | 11 => 30
  | 2 => if is_leap y then 29 else 28
  | _ => 0
  end.

(** [d] is a day number of the month that [dt] lies in. *)
Definition valid_day (dt : datetime) (d : Z) : bool :=
  (1 <=? d) && (d <=? days_in_month (year dt) (month dt)).

(** A value [datetime.utcnow()] can return. *)
Definition wf_datetime (dt : datetime) : Prop :=
  1 ≤ year dt ≤ 9999 ∧ 1 ≤ month dt ≤ 12 ∧ valid_day dt (day dt) = true ∧
  0 ≤ hour dt < 24 ∧ 0 ≤ minute dt < 60 ∧ 0 ≤ second dt < 60 ∧
  0 ≤ microsecond dt < 1000000.

(** [n] fits a C [int]. *)
Definition c_int_ok (n : Z) : bool :=
  (-2147483648 <=? n) && (n <=? 2147483647).

(** [dt.replace(day=d)]: the same instant on day [d] of the same month.
    The argument is first converted to a C [int], [OverflowError] when it
    does not fit; then the date is built, [ValueError] when the month
    has no such day. *)
Definition replace_day (dt : datetime) (d : Z) : result exn datetime :=
  if c_int_ok d then
    if valid_day dt d
    then Ok (mkDatetime (year dt) (month dt) d (hour dt) (minute dt)
               (second dt) (microsecond dt))
    else Err ValueError
  else Err OverflowError.

(** What [dt.replace(day=d)] raises for a day [d] that the month does
    not have. *)
Definition raised_for (d : Z) : exn :=
  if c_int_ok d then ValueError else OverflowError.

Definition fields (dt : datetime) : list Z :=
  [year dt; month dt; day dt; hour dt; minute dt; second dt; microsecond dt].

Fixpoint lex_le (a b : list Z) : bool :=
  match a, b with
  | x :: a', y :: b' => (x <? y) || ((x =? y) && lex_le a' b')
  | [], _ => true
  | _ :: _, [] => false
  end.

(** [a <= b] on datetimes. *)
Definition datetime_le (a b : datetime) : bool := lex_le (fields a) (fields b).

(** *** The entity

    An attribute that the constructor is not given is [None] on the
    object until the row is written, whatever default its column
    declares; every column but the five the constructors always pass
    is therefore optional.  The columns that no method of the class
    reads or writes ([ip_address], [user_agent], [processing_time_ms],
    [created_at], [updated_at]) are left out. *)
Record PointTransaction := mkPointTransaction {
  id : option Z;
  user_id : Z;
  campaign_id : option Z;
  transaction_type : TransactionType;
  source : TransactionSource;
  status : option TransactionStatus;
  points : Z;
  balance_before : option Z;
  balance_after : option Z;
  description : string;
  reference_id : option string;
  reference_type : option string;
  expires_at : option datetime;
  is_expired : option bool;
  related_transaction_id : option Z;
  metadata : option string;
  admin_user_id : option Z;
  admin_notes : option string;
  processed_at : option datetime
}.

Definition is_earning_transaction (self : PointTransaction) : bool :=
  bool_decide (transaction_type self ∈ [EARNED; REFUNDED; BONUS]).

Definition is_spending_transaction (self : PointTransaction) : bool :=
  bool_decide (transaction_type self ∈ [SPENT; EXPIRED; PENALTY]).

Definition is_completed (self : PointTransaction) : bool :=
  bool_decide (status self = Some COMPLETED).

Definition is_pending (self : PointTransaction) : bool :=
  bool_decide (status self = Some PENDING).

Definition absolute_points (self : PointTransaction) : Z :=
  Z.abs (points self).

Definition with_status (self : PointTransaction) (st : TransactionStatus)
    : PointTransaction :=
  mkPointTransaction (id self) (user_id self) (campaign_id self)
    (transaction_type self) (source self) (Some st) (points self)
    (balance_before self) (balance_after self) (description self)
    (reference_id self) (reference_type self) (expires_at self)
    (is_expired self) (related_transaction_id self) (metadata self)
    (admin_user_id self) (admin_notes self) (processed_at self).

Definition with_expires_at (self : PointTransaction) (e : datetime)
    : PointTransaction :=
  mkPointTransaction (id self) (user_id self) (campaign_id self)
    (transaction_type self) (source self) (status self) (points self)
    (balance_before self) (balance_after self) (description self)
    (reference_id self) (reference_type self) (Some e)
    (is_expired self) (related_transaction_id self) (metadata self)
    (admin_user_id self) (admin_notes self) (processed_at self).

Definition with_processed (self : PointTransaction) (st : TransactionStatus)
    (utcnow : datetime) (notes : option string) : PointTransaction :=
  mkPointTransaction (id self) (user_id self) (campaign_id self)
    (transaction_type self) (source self) (Some st) (points self)
    (balance_before self) (balance_after self) (description self)
    (reference_id self) (reference_type self) (expires_at self)
    (is_expired self) (related_transaction_id self) (metadata self)
    (admin_user_id self) notes (Some utcnow).

(** [if reason: self.admin_notes = reason] *)
Definition noted (self : PointTransaction) (reason : option string)
    : option string :=
  match reason with
  | Some (String c r) => Some (String c r)
  | _ => admin_notes self
  end.

Definition complete (self : PointTransaction) (utcnow : datetime)
    : PointTransaction :=
  with_processed self COMPLETED utcnow (admin_notes self).

Definition fail (self : PointTransaction) (reason : option string)
    (utcnow : datetime) : PointTransaction :=
  with_processed self FAILED utcnow (noted self reason).

Definition cancel (self : PointTransaction) (reason : option string)
    (utcnow : datetime) : PointTransaction :=
  with_processed self CANCELLED utcnow (noted self reason).

Definition expire (self : PointTransaction) : PointTransaction :=
  mkPointTransaction (id self) (user_id self) (campaign_id self)
    (transaction_type self) (source self) (Some COMPLETED) (points self)
    (balance_before self) (balance_after self) (description self)
    (reference_id self) (reference_type self) (expires_at self)
    (Some true) (related_transaction_id self) (metadata self)
    (admin_user_id self) (admin_notes self) (processed_at self).

(** [str(self.id)] inside the f-string of [reverse]. *)
Definition str_of_id (i : option Z) : string :=
  match i with
  | Some n => pretty n
  | None => "None"
  end.

(** [reverse]: the receiver after the call, and the entry returned. *)
Definition reverse (self : PointTransaction) (admin_user_id : Z)
    (reason : option string) (utcnow : datetime)
    : PointTransaction * PointTransaction :=
  let reverse_transaction :=
    mkPointTransaction None (user_id self) None ADJUSTED ADMIN
      (Some COMPLETED)
      (- points self)
      (Some 0)
      (Some 0)
      ("Reversal of transaction #" +:+ str_of_id (id self) +:+ ": "
         +:+ str_or reason "Administrative reversal")
      None None None None
      (id self)
      None
      (Some admin_user_id)
      reason
      (Some utcnow) in
  (with_status self REVERSED, reverse_transaction).

(** [datetime.utcnow().replace(day=datetime.utcnow().day + n)]: the clock
    is read twice, first for the receiver of [replace], then for the
    day. *)
Definition day_shifted (utcnow utcnow' : datetime) (n : Z)
    : result exn datetime :=
  replace_day utcnow (day utcnow' + n).

Definition set_expiry (self : PointTransaction) (days_from_now : Z)
    (utcnow utcnow' : datetime) : result exn PointTransaction :=
  if is_earning_transaction self then
    match day_shifted utcnow utcnow' days_from_now with
    | Ok e => Ok (with_expires_at self e)
    | Err x => Err x
    end
  else Ok self.

(** Truth value of an optional flag: [None] is falsy. *)
Definition truthy (b : option bool) : bool := default false b.

Definition is_expiring_soon (self : PointTransaction)
    (utcnow utcnow' : datetime) : result exn bool :=
  match expires_at self with
  | None => Ok false
  | Some e =>
      if truthy (is_expired self) then Ok false
      else
        match day_shifted utcnow utcnow' 30 with
        | Ok thirty_days_from_now => Ok (datetime_le e thirty_days_from_now)
        | Err x => Err x
        end
  end.

(** [cls(...)] with the keyword arguments of the two factories. *)
Definition new_transaction (user_id : Z) (ty : TransactionType)
    (source : TransactionSource) (points : Z) (description : string)
    (campaign_id : option Z) (reference_id reference_type : option string)
    : PointTransaction :=
  mkPointTransaction None user_id campaign_id ty source None points
    None None description reference_id reference_type None None None None
    None None None.

Definition default_expires_in_days : Z := 365.

Definition create_earning_transaction (user_id points : Z)
    (source : TransactionSource) (description : string)
    (campaign_id : option Z) (expires_in_days : Z)
    (reference_id reference_type : option string)
    (utcnow utcnow' : datetime) : result exn PointTransaction :=
  let transaction :=
    new_transaction user_id EARNED source (Z.abs points) description
      campaign_id reference_id reference_type in
  if bool_decide (0 < expires_in_days)
  then set_expiry transaction expires_in_days utcnow utcnow'
  else Ok transaction.

Definition create_spending_transaction (user_id points : Z)
    (source : TransactionSource) (description : string)
    (reference_id reference_type : option string) : PointTransaction :=
  new_transaction user_id SPENT source (- Z.abs points) description
    None reference_id reference_type.

(** The snapshot equation of a posted entry. *)
Definition snapshot_consistent (e : PointTransaction) : Prop :=
  ∃ before, balance_before e = Some before ∧
            balance_after e = Some (before + points e).

(** *** Sample values *)

Definition sample_utcnow : datetime := mkDatetime 2025 9 15 10 25 37 0.

(** A credit of 100 points of user 7 that waits for approval. *)
Definition sample_pending : PointTransaction :=
  mkPointTransaction (Some 4) 7 None EARNED REVIEW (Some PENDING) 100
    (Some 650) (Some 650) "review" None None None (Some false) None None
    None None None.

(** The same credit once posted. *)
Definition sample_completed : PointTransaction :=
  mkPointTransaction (Some 4) 7 None EARNED REVIEW (Some COMPLETED) 100
    (Some 650) (Some 750) "review" None None None (Some false) None None
    None None None.

(** The posted credit with an expiry on 20 September 2025. *)
Definition sample_expiring : PointTransaction :=
  with_expires_at sample_completed (mkDatetime 2025 9 20 0 0 0 0).

(** The first of a month of 31 days. *)
Definition first_of_october : datetime := mkDatetime 2025 10 1 8 0 0 0.

End Model.

(** ** Phase 1: the points of the entity [User]

    [app/models/user.py] keeps two counters on the user, which
    [add_points] and [deduct_points] write.  A user here is one loaded
    from the table, where neither column is null; the other columns
    are not touched by the two methods and are left out. *)
Module UserModel.

Record User := mkUser {
  total_points : Z;
  available_points : Z
}.

Definition add_points (self : User) (amount : Z) : User :=
  mkUser (total_points self + amount) (available_points self + amount).

(** [deduct_points]: the user after the call, and the value returned. *)
Definition deduct_points (self : User) (amount : Z) : User * bool :=
  if bool_decide (amount ≤ available_points self)
  then (mkUser (total_points self) (available_points self - amount), true)
  else (self, false).

End UserModel.

(** ** What the endpoints guarantee *)
Module ApiProps.
Import Api.

Lemma field_of_insert f u b db txs :
  field_of f (mkStore (<[u := b]> db) txs) u = f b.
Proof. unfold field_of; simpl. by rewrite lookup_insert_eq. Qed.

Lemma field_of_insert_ne f u v b db txs :
  u ≠ v →
  field_of f (mkStore (<[u := b]> db) txs) v = field_of f (mkStore db txs) v.
Proof. intros Hne. unfold field_of; simpl. by rewrite lookup_insert_ne. Qed.

(** [earn_points] always answers, and answers with the id it filed the
    new transaction under. *)
Lemma earn_points_reply pd u now s :
  ∃ r, (earn_points pd u now s).2 = Ok (RPoint r) ∧
       transaction_id r = new_id (fake_transactions_db s).
Proof. eexists. split; reflexivity. Qed.

Lemma earn_points_files pd u now s :
  ∃ t, fake_transactions_db (earn_points pd u now s).1
         !! new_id (fake_transactions_db s) = Some t ∧
       status t = "pending" ∧ transaction_type t = "earned" ∧
       points t = pc_points pd ∧ owner_email t = u ∧
       id t = new_id (fake_transactions_db s).
Proof.
  eexists. split.
  - unfold earn_points; simpl. apply lookup_insert_eq.
  - done.
Qed.

Lemma earn_points_available pd u now s :
  field_of available_points (earn_points pd u now s).1 u
  = field_of available_points s u.
Proof.
  unfold earn_points. cbn [fst]. rewrite field_of_insert. simpl.
  unfold field_of. by destruct (fake_points_db s !! u).
Qed.

Lemma earn_points_total pd u now s :
  field_of total_points (earn_points pd u now s).1 u
  = field_of total_points s u.
Proof.
  unfold earn_points. cbn [fst]. rewrite field_of_insert. simpl.
  unfold field_of. by destruct (fake_points_db s !! u).
Qed.

Lemma earn_points_pending pd u now s :
  field_of pending_points (earn_points pd u now s).1 u
  = field_of pending_points s u + pc_points pd.
Proof.
  unfold earn_points. cbn [fst]. rewrite field_of_insert. simpl.
  unfold field_of. by destruct (fake_points_db s !! u).
Qed.

(** Approving a pending credit whose owner has a balance. *)
Lemma approve_pending_credit i admin now s t b :
  fake_transactions_db s !! i = Some t →
  status t = "pending" → transaction_type t = "earned" →
  fake_points_db s !! owner_email t = Some b →
  approve_transaction i admin now s
  = (mkStore (<[owner_email t := credit b (points t) now]> (fake_points_db s))
             (<[i := set_status t "completed"]> (fake_transactions_db s)),
     Ok (RMessage "Transaction approved successfully")).
Proof.
  intros Ht Hst Hty Hb. unfold approve_transaction, update_owner.
  rewrite Ht, Hst, Hty, Hb. reflexivity.
Qed.

(** Rejecting a pending credit whose owner has a balance. *)
Lemma reject_pending_credit i reason admin now s t b :
  fake_transactions_db s !! i = Some t →
  status t = "pending" → transaction_type t = "earned" →
  fake_points_db s !! owner_email t = Some b →
  reject_transaction i reason admin now s
  = (mkStore (<[owner_email t := withdraw_pending b (points t) now]>
                (fake_points_db s))
             (<[i := append_description (set_status t "failed")
                       (" (거부 사유: " +:+ reason +:+ ")")]>
                (fake_transactions_db s)),
     Ok (RMessage "Transaction rejected successfully")).
Proof.
  intros Ht Hst Hty Hb. unfold reject_transaction, update_owner.
  rewrite Ht, Hst, Hty, Hb. reflexivity.
Qed.

(** A transaction that is not pending can be neither approved nor
    rejected, and the attempt changes nothing. *)
Lemma reject_not_pending i reason admin now s t :
  fake_transactions_db s !! i = Some t → status t ≠ "pending" →
  reject_transaction i reason admin now s = (s, Err NotPending).
Proof.
  intros Ht Hst. unfold reject_transaction. rewrite Ht.
  by rewrite bool_decide_eq_true_2.
Qed.

(** *** Invariants of the store *)

Lemma run_nil s : run [] s = s.
Proof. reflexivity. Qed.

Lemma run_cons rq rqs s : run (rq :: rqs) s = run rqs (handle rq s).1.
Proof. reflexivity. Qed.

Lemma run_app rqs rqs' s : run (rqs ++ rqs') s = run rqs' (run rqs s).
Proof. unfold run. apply foldl_app. Qed.

(** A property that every admitted call preserves holds after any
    sequence of admitted calls. *)
Lemma run_invariant (P : Store → Prop) (Q : request → Prop) :
  (∀ rq s, Q rq → P s → P (handle rq s).1) →
  ∀ rqs s, Forall Q rqs → P s → P (run rqs s).
Proof.
  intros Hstep rqs. induction rqs as [|rq rqs IH]; intros s HQ HP.
  - exact HP.
  - rewrite run_cons. inversion HQ; subst. apply IH; [assumption|].
    by apply Hstep.
Qed.

Lemma reachable_initial t0 : reachable (initial_store t0).
Proof. by exists t0, []. Qed.

Lemma reachable_handle rq s : reachable s → reachable (handle rq s).1.
Proof.
  intros (t0 & rqs & ->). exists t0, (rqs ++ [rq]). by rewrite run_app.
Qed.

Lemma reachable_ind' (P : Store → Prop) :
  (∀ t0, P (initial_store t0)) →
  (∀ rq s, P s → P (handle rq s).1) →
  ∀ s, reachable s → P s.
Proof.
  intros Hinit Hstep s (t0 & rqs & ->).
  apply (run_invariant P (λ _, True)); [auto | | apply Hinit].
  by apply Forall_forall.
Qed.

Lemma update_owner_is_Some f t now (db : gmap string Balance) k :
  is_Some (db !! k) → is_Some (update_owner f t now db !! k).
Proof.
  intros Hk. unfold update_owner. case_bool_decide; [|done].
  destruct (db !! owner_email t) eqn:E; [|done].
  apply lookup_insert_is_Some. destruct (decide (owner_email t = k)); auto.
Qed.

Lemma insert_is_Some (db : gmap string Balance) u b k :
  is_Some (db !! k) → is_Some (<[u := b]> db !! k).
Proof.
  intros Hk. apply lookup_insert_is_Some.
  destruct (decide (u = k)); auto.
Qed.

(** The available points of every balance after [update_owner]. *)
Lemma update_owner_lookup f t now (db : gmap string Balance) k b' :
  update_owner f t now db !! k = Some b' →
  db !! k = Some b' ∨
  (transaction_type t = "earned" ∧ k = owner_email t ∧
   ∃ b, db !! k = Some b ∧ b' = f b (points t) now).
Proof.
  unfold update_owner. case_bool_decide as Hty; [|auto].
  destruct (db !! owner_email t) as [b|] eqn:E; [|auto].
  destruct (decide (owner_email t = k)) as [<-|Hne].
  - rewrite lookup_insert_eq. intros [= <-]. right. eauto.
  - rewrite lookup_insert_ne by done. auto.
Qed.

Lemma initial_pending_are_credits t0 : pending_are_credits (initial_store t0).
Proof.
  intros i t Hi Hst. simpl in Hi. unfold initial_transactions_db in Hi.
  destruct (decide (i = 1)) as [->|];
    [rewrite lookup_insert_eq in Hi; by simplify_eq|
     rewrite lookup_insert_ne in Hi by done].
  destruct (decide (i = 2)) as [->|];
    [rewrite lookup_insert_eq in Hi; by simplify_eq|
     rewrite lookup_insert_ne in Hi by done].
  destruct (decide (i = 3)) as [->|];
    [rewrite lookup_insert_eq in Hi|
     rewrite lookup_insert_ne in Hi by done; by rewrite lookup_empty in Hi].
  simplify_eq. split; [done|]. simpl. unfold initial_points_db.
  apply insert_is_Some. rewrite lookup_insert_eq. eauto.
Qed.

(** The entry found under [j] after an insertion under [i] is the
    inserted one, or was there before. *)
Ltac inserted Hj :=
  apply lookup_insert_Some in Hj as [[_ <-]|[_ Hj]].

(** The invariant at an entry the call has not filed. *)
Ltac kept Inv grows :=
  match goal with
  | Hj : _ !! _ = Some ?t, Hst : status ?t = "pending" |- _ =>
      destruct (Inv _ _ Hj Hst) as [? ?]; split; [done|]; by apply grows
  end.

Lemma handle_pending_are_credits rq s :
  pending_are_credits s → pending_are_credits (handle rq s).1.
Proof.
  intros Inv. destruct rq as [u now|pd u now|pd u now|i u now|i r u now];
    simpl.
  - unfold get_point_balance. destruct (fake_points_db s !! u); [done|].
    intros j t Hj Hst. simpl in *. kept Inv insert_is_Some.
  - unfold earn_points. intros j t Hj Hst.
    cbn [fst fake_transactions_db fake_points_db] in *. inserted Hj.
    + split; [done|]. simpl. rewrite lookup_insert_eq. eauto.
    + kept Inv insert_is_Some.
  - unfold use_points. destruct (fake_points_db s !! u) as [b|]; [|done].
    case_bool_decide; [done|]. intros j t Hj Hst.
    cbn [fst fake_transactions_db fake_points_db] in *. inserted Hj.
    + done.
    + kept Inv insert_is_Some.
  - unfold approve_transaction.
    destruct (fake_transactions_db s !! i) as [t0|] eqn:E; [|done].
    case_bool_decide; [done|]. intros j t Hj Hst.
    cbn [fst fake_transactions_db fake_points_db] in *. inserted Hj.
    + done.
    + kept Inv update_owner_is_Some.
  - unfold reject_transaction.
    destruct (fake_transactions_db s !! i) as [t0|] eqn:E; [|done].
    case_bool_decide; [done|]. intros j t Hj Hst.
    cbn [fst fake_transactions_db fake_points_db] in *. inserted Hj.
    + done.
    + kept Inv update_owner_is_Some.
Qed.

Lemma reachable_pending_are_credits s : reachable s → pending_are_credits s.
Proof.
  apply reachable_ind'.
  - apply initial_pending_are_credits.
  - intros rq s'. apply handle_pending_are_credits.
Qed.

(** C2. A user whose available points are fewer than the points asked
    for cannot spend: [use_points] raises "Insufficient points" and
    neither dictionary changes.  The available points of a user who
    has no balance yet count as 0. *)
Theorem use_points_insufficient pd u now s :
  field_of available_points s u < pc_points pd →
  use_points pd u now s = (s, Err InsufficientPoints).
Proof.
  unfold field_of, use_points. intros Hlt.
  destruct (fake_points_db s !! u) as [b|]; [|done].
  simpl in Hlt. by rewrite bool_decide_eq_true_2.
Qed.

(** The scenario of C2: available 0, spending 50 on a coupon. *)
Lemma use_points_insufficient_witness :
  use_points coupon_for_50 "u" 7 empty_handed
  = (empty_handed, Err InsufficientPoints).
Proof.
  apply (use_points_insufficient coupon_for_50 "u" 7 empty_handed).
  vm_compute. reflexivity.
Defined.

(** C10. Reading the balance of a user who has no record succeeds: the
    answer is a balance whose five counters are 0, and that balance is
    stored under the user as a side effect; the transactions are left
    alone. *)
Theorem get_point_balance_new_user u now s :
  fake_points_db s !! u = None →
  ∃ b, (get_point_balance u now s).2 = Ok (RBalance b) ∧
       user_email b = u ∧
       total_points b = 0 ∧ available_points b = 0 ∧ pending_points b = 0 ∧
       used_points b = 0 ∧ expired_points b = 0 ∧
       fake_points_db (get_point_balance u now s).1
         = <[u := b]> (fake_points_db s) ∧
       fake_transactions_db (get_point_balance u now s).1
         = fake_transactions_db s.
Proof.
  intros Hnone. exists (zero_balance u now).
  unfold get_point_balance. rewrite Hnone. simpl. repeat split.
Qed.

Lemma get_point_balance_new_user_witness :
  ∃ b, (get_point_balance "new@example.com" 5 (initial_store 0)).2
         = Ok (RBalance b) ∧
       user_email b = "new@example.com" ∧
       total_points b = 0 ∧ available_points b = 0 ∧ pending_points b = 0 ∧
       used_points b = 0 ∧ expired_points b = 0 ∧
       fake_points_db (get_point_balance "new@example.com" 5
                         (initial_store 0)).1
         = <["new@example.com" := b]> (fake_points_db (initial_store 0)) ∧
       fake_transactions_db (get_point_balance "new@example.com" 5
                               (initial_store 0)).1
         = fake_transactions_db (initial_store 0).
Proof.
  apply (get_point_balance_new_user "new@example.com" 5 (initial_store 0)).
  vm_compute. reflexivity.
Defined.

Lemma initial_solvent t0 : solvent (initial_store t0).
Proof.
  split.
  - intros u b Hu. simpl in Hu. unfold initial_points_db in Hu.
    apply lookup_insert_Some in Hu as [[_ <-]|[_ Hu]]; [simpl; lia|].
    apply lookup_insert_Some in Hu as [[_ <-]|[_ Hu]]; [simpl; lia|].
    by rewrite lookup_empty in Hu.
  - intros i t Hi Hst _. simpl in Hi. unfold initial_transactions_db in Hi.
    apply lookup_insert_Some in Hi as [[_ <-]|[_ Hi]]; [simpl; lia|].
    apply lookup_insert_Some in Hi as [[_ <-]|[_ Hi]]; [done|].
    apply lookup_insert_Some in Hi as [[_ <-]|[_ Hi]]; [simpl; lia|].
    by rewrite lookup_empty in Hi.
Qed.

(** No single call overdraws a balance, unless it is an earn request
    for a negative amount. *)
Lemma handle_solvent rq s :
  nonneg_earn rq → solvent s → solvent (handle rq s).1.
Proof.
  intros Hrq [Hbal Hpend].
  destruct rq as [u now|pd u now|pd u now|i u now|i r u now]; simpl in *.
  - unfold get_point_balance.
    destruct (fake_points_db s !! u) eqn:E; [by split|]. split; [|done].
    intros v b Hv. simpl in Hv.
    apply lookup_insert_Some in Hv as [[_ <-]|[_ Hv]]; [simpl; lia|eauto].
  - unfold earn_points. split.
    + intros v b Hv. cbn [fst fake_points_db] in Hv.
      apply lookup_insert_Some in Hv as [[_ <-]|[_ Hv]]; [|eauto].
      simpl. destruct (fake_points_db s !! u) eqn:E; [eauto|simpl; lia].
    + intros j t Hj Hst Hty. cbn [fst fake_transactions_db] in Hj.
      apply lookup_insert_Some in Hj as [[_ <-]|[_ Hj]]; [done|eauto].
  - unfold use_points. destruct (fake_points_db s !! u) as [b0|] eqn:E;
      [|by split].
    case_bool_decide as Hlt; [by split|]. split.
    + intros v b Hv. cbn [fst fake_points_db] in Hv.
      apply lookup_insert_Some in Hv as [[_ <-]|[_ Hv]]; [simpl; lia|eauto].
    + intros j t Hj Hst Hty. cbn [fst fake_transactions_db] in Hj.
      apply lookup_insert_Some in Hj as [[_ <-]|[_ Hj]]; [done|eauto].
  - unfold approve_transaction.
    destruct (fake_transactions_db s !! i) as [t0|] eqn:E; [|by split].
    case_bool_decide as Hst0; [by split|].
    assert (status t0 = "pending") as Hp
      by (destruct (decide (status t0 = "pending")); [done|by destruct Hst0]).
    split.
    + intros v b Hv. cbn [fst fake_points_db] in Hv.
      apply update_owner_lookup in Hv as [Hv|(Hty & -> & b0 & Hb0 & ->)];
        [eauto|].
      simpl. specialize (Hbal _ _ Hb0). specialize (Hpend _ _ E Hp Hty). lia.
    + intros j t Hj Hst Hty. cbn [fst fake_transactions_db] in Hj.
      apply lookup_insert_Some in Hj as [[_ <-]|[_ Hj]]; [done|eauto].
  - unfold reject_transaction.
    destruct (fake_transactions_db s !! i) as [t0|] eqn:E; [|by split].
    case_bool_decide as Hst0; [by split|]. split.
    + intros v b Hv. cbn [fst fake_points_db] in Hv.
      apply update_owner_lookup in Hv as [Hv|(Hty & -> & b0 & Hb0 & ->)];
        [eauto|].
      simpl. eauto.
    + intros j t Hj Hst Hty. cbn [fst fake_transactions_db] in Hj.
      apply lookup_insert_Some in Hj as [[_ <-]|[_ Hj]]; [done|eauto].
Qed.

(** C1, as the code has it. Starting from the dictionaries as loaded,
    after every sequence of get-balance, earn, use, approve and reject
    calls in which no earn request carries a negative amount, the
    available points of every user are at least 0. *)
Theorem available_points_nonneg t0 rqs u b :
  Forall nonneg_earn rqs →
  fake_points_db (run rqs (initial_store t0)) !! u = Some b →
  0 ≤ available_points b.
Proof.
  intros Hrqs Hu.
  assert (solvent (run rqs (initial_store t0))) as [Hbal _].
  { apply (run_invariant solvent nonneg_earn); [|done|apply initial_solvent].
    intros rq s. apply handle_solvent. }
  by apply (Hbal u).
Qed.

Lemma available_points_nonneg_witness :
  ∃ b, fake_points_db (run sample_requests (initial_store 0))
         !! "user1@example.com" = Some b ∧
       available_points b = 0 ∧ 0 ≤ available_points b.
Proof.
  eexists. split; [vm_compute; reflexivity|]. split; [reflexivity|].
  eapply (available_points_nonneg 0 sample_requests "user1@example.com").
  - unfold sample_requests. repeat constructor; simpl; lia.
  - vm_compute. reflexivity.
Defined.

(** C1 as stated fails: the earn endpoint takes a negative amount, and
    approving that entry takes the balance of a new user from 0
    to -100. *)
Lemma available_points_negative :
  available_points <$>
    (fake_points_db (run overdraft_requests (initial_store 0))
       !! "eve@example.com")
  = Some (-100).
Proof. vm_compute. reflexivity. Qed.

Lemma earn_points_owner_balance pd u now s :
  ∃ b1, fake_points_db (earn_points pd u now s).1 !! u = Some b1.
Proof.
  unfold earn_points. cbn [fst fake_points_db].
  rewrite lookup_insert_eq. eauto.
Qed.

(** Earning and then approving, whatever the sign of the amount. *)
Lemma earn_then_approve_general pd u now admin now' s :
  let p := pc_points pd in
  let i := new_id (fake_transactions_db s) in
  let s1 := (earn_points pd u now s).1 in
  let s2 := (approve_transaction i admin now' s1).1 in
  (∃ r, (earn_points pd u now s).2 = Ok (RPoint r) ∧ transaction_id r = i) ∧
  status <$> fake_transactions_db s1 !! i = Some "pending" ∧
  field_of pending_points s1 u = field_of pending_points s u + p ∧
  field_of available_points s1 u = field_of available_points s u ∧
  (approve_transaction i admin now' s1).2
    = Ok (RMessage "Transaction approved successfully") ∧
  status <$> fake_transactions_db s2 !! i = Some "completed" ∧
  field_of available_points s2 u = field_of available_points s1 u + p ∧
  field_of total_points s2 u = field_of total_points s1 u + p ∧
  field_of pending_points s2 u = field_of pending_points s1 u - p.
Proof.
  intros p i s1 s2.
  destruct (earn_points_files pd u now s)
    as (t & Ht & Hst & Hty & Hp & Ho & _).
  fold i s1 in Ht.
  destruct (earn_points_owner_balance pd u now s) as [b1 Hb1]. fold s1 in Hb1.
  assert (approve_transaction i admin now' s1
          = (mkStore (<[u := credit b1 p now']> (fake_points_db s1))
                     (<[i := set_status t "completed"]>
                        (fake_transactions_db s1)),
             Ok (RMessage "Transaction approved successfully"))) as Happ.
  { rewrite <- Ho in Hb1 |- *. unfold p. rewrite <- Hp.
    by apply approve_pending_credit. }
  split; [apply earn_points_reply|].
  split; [by rewrite Ht; simpl; rewrite Hst|].
  split; [apply earn_points_pending|].
  split; [apply earn_points_available|].
  unfold s2. rewrite Happ. cbn [fst snd fake_transactions_db].
  split; [done|].
  split; [by rewrite lookup_insert_eq|].
  rewrite !field_of_insert. unfold field_of. rewrite Hb1. simpl. done.
Qed.

(** C5. [earn_points] of a positive amount [p] files a pending entry,
    adds [p] to the pending points of the user and leaves the available
    points as they were; approving that entry next makes it completed,
    adds [p] to the available and to the total points and takes [p]
    off the pending points. *)
Theorem earn_then_approve pd u now admin now' s :
  0 < pc_points pd →
  let p := pc_points pd in
  let i := new_id (fake_transactions_db s) in
  let s1 := (earn_points pd u now s).1 in
  let s2 := (approve_transaction i admin now' s1).1 in
  (∃ r, (earn_points pd u now s).2 = Ok (RPoint r) ∧ transaction_id r = i) ∧
  status <$> fake_transactions_db s1 !! i = Some "pending" ∧
  field_of pending_points s1 u = field_of pending_points s u + p ∧
  field_of available_points s1 u = field_of available_points s u ∧
  (approve_transaction i admin now' s1).2
    = Ok (RMessage "Transaction approved successfully") ∧
  status <$> fake_transactions_db s2 !! i = Some "completed" ∧
  field_of available_points s2 u = field_of available_points s1 u + p ∧
  field_of total_points s2 u = field_of total_points s1 u + p ∧
  field_of pending_points s2 u = field_of pending_points s1 u - p.
Proof. intros _. apply earn_then_approve_general. Qed.

(** The scenario of C5: 500 points for a review. *)
Lemma earn_then_approve_witness :
  status <$>
    fake_transactions_db
      (earn_points review_for_500 "user1@example.com" 10 (initial_store 0)).1
      !! new_id (fake_transactions_db (initial_store 0))
  = Some "pending" ∧
  field_of pending_points
    (earn_points review_for_500 "user1@example.com" 10 (initial_store 0)).1
    "user1@example.com"
  = field_of pending_points (initial_store 0) "user1@example.com" + 500 ∧
  field_of available_points
    (earn_points review_for_500 "user1@example.com" 10 (initial_store 0)).1
    "user1@example.com"
  = field_of available_points (initial_store 0) "user1@example.com" ∧
  field_of available_points
    (approve_transaction (new_id (fake_transactions_db (initial_store 0)))
       "admin@linkplace.com" 11
       (earn_points review_for_500 "user1@example.com" 10
          (initial_store 0)).1).1
    "user1@example.com"
  = field_of available_points
      (earn_points review_for_500 "user1@example.com" 10 (initial_store 0)).1
      "user1@example.com" + 500.
Proof.
  destruct (earn_then_approve review_for_500 "user1@example.com" 10
              "admin@linkplace.com" 11 (initial_store 0))
    as (_ & H1 & H2 & H3 & _ & _ & H5 & _).
  - simpl. lia.
  - repeat split; assumption.
Defined.

(** C7. Rejecting a pending entry makes it failed and takes its points
    off the pending points of its owner, whose available and total
    points stay as they were; rejecting it once more raises
    "Transaction is not pending" and changes nothing. *)
Theorem reject_twice s i t reason admin now reason' admin' now' :
  reachable s →
  fake_transactions_db s !! i = Some t → status t = "pending" →
  let o1 := reject_transaction i reason admin now s in
  let u := owner_email t in
  o1.2 = Ok (RMessage "Transaction rejected successfully") ∧
  status <$> fake_transactions_db o1.1 !! i = Some "failed" ∧
  field_of pending_points o1.1 u = field_of pending_points s u - points t ∧
  field_of available_points o1.1 u = field_of available_points s u ∧
  field_of total_points o1.1 u = field_of total_points s u ∧
  reject_transaction i reason' admin' now' o1.1 = (o1.1, Err NotPending).
Proof.
  intros Hr Ht Hst o1 u.
  destruct (reachable_pending_are_credits s Hr i t Ht Hst) as [Hty [b Hb]].
  unfold o1. rewrite (reject_pending_credit i reason admin now s t b) by done.
  cbn [fst snd fake_transactions_db].
  split; [done|].
  split; [by rewrite lookup_insert_eq|].
  subst u. rewrite !field_of_insert. unfold field_of. rewrite Hb. simpl.
  repeat (split; [done|]).
  eapply reject_not_pending.
  - cbn [fake_transactions_db]. apply lookup_insert_eq.
  - done.
Qed.

Lemma reject_twice_witness :
  field_of pending_points
    (reject_transaction 3 "spam" "admin@linkplace.com" 10 (initial_store 0)).1
    "user1@example.com"
  = field_of pending_points (initial_store 0) "user1@example.com" - 300 ∧
  reject_transaction 3 "again" "admin@linkplace.com" 11
    (reject_transaction 3 "spam" "admin@linkplace.com" 10 (initial_store 0)).1
  = ((reject_transaction 3 "spam" "admin@linkplace.com" 10
        (initial_store 0)).1,
     Err NotPending).
Proof.
  destruct (reject_twice (initial_store 0) 3 transaction_3
              "spam" "admin@linkplace.com" 10
              "again" "admin@linkplace.com" 11)
    as (_ & _ & Hp & _ & _ & H2).
  - apply reachable_initial.
  - vm_compute. reflexivity.
  - reflexivity.
  - split; [exact Hp | exact H2].
Defined.

End ApiProps.

(** ** What the entity guarantees *)
Module ModelProps.
Import Model.

Lemma days_in_month_le_31 y m : days_in_month y m ≤ 31.
Proof.
  unfold days_in_month.
  destruct m as [|p|p]; try lia.
  do 4 (try destruct p as [p|p|]); try lia; destruct (is_leap y); lia.
Qed.

(** A day number past 31 is a day of no month. *)
Lemma valid_day_gt_31 dt d : 31 < d → valid_day dt d = false.
Proof.
  intros Hd. unfold valid_day. apply andb_false_iff. right.
  apply Z.leb_gt. pose proof (days_in_month_le_31 (year dt) (month dt)). lia.
Qed.

Lemma wf_datetime_day dt : wf_datetime dt → 1 ≤ day dt ≤ 31.
Proof.
  intros (_ & _ & Hv & _). unfold valid_day in Hv.
  apply andb_true_iff in Hv as [H1 H2].
  apply Z.leb_le in H1, H2.
  pose proof (days_in_month_le_31 (year dt) (month dt)). lia.
Qed.

(** A number that does not fit a C [int] is a day of no month. *)
Lemma c_int_overflow_invalid dt d :
  c_int_ok d = false → valid_day dt d = false.
Proof.
  unfold c_int_ok, valid_day. intros Hc.
  pose proof (days_in_month_le_31 (year dt) (month dt)).
  apply andb_false_iff in Hc as [Hc|Hc]; apply Z.leb_gt in Hc;
    apply andb_false_iff; [left|right]; apply Z.leb_gt; lia.
Qed.

Lemma day_shifted_invalid utcnow utcnow' n :
  valid_day utcnow (day utcnow' + n) = false →
  day_shifted utcnow utcnow' n = Err (raised_for (day utcnow' + n)).
Proof.
  intros Hv. unfold day_shifted, replace_day, raised_for.
  rewrite Hv. by destruct (c_int_ok (day utcnow' + n)).
Qed.

Lemma day_shifted_fits_invalid utcnow utcnow' n :
  c_int_ok (day utcnow' + n) = true →
  valid_day utcnow (day utcnow' + n) = false →
  day_shifted utcnow utcnow' n = Err ValueError.
Proof.
  intros Hc Hv. rewrite day_shifted_invalid by done.
  unfold raised_for. by rewrite Hc.
Qed.

Lemma day_shifted_ge_31 utcnow utcnow' n :
  wf_datetime utcnow' → 31 ≤ n →
  day_shifted utcnow utcnow' n = Err (raised_for (day utcnow' + n)).
Proof.
  intros Hwf Hn. apply day_shifted_invalid, valid_day_gt_31.
  apply wf_datetime_day in Hwf. lia.
Qed.

Lemma raised_for_fits utcnow' n :
  wf_datetime utcnow' → -2147483648 ≤ n ≤ 2147483616 →
  raised_for (day utcnow' + n) = ValueError.
Proof.
  intros Hwf%wf_datetime_day Hn. unfold raised_for, c_int_ok.
  destruct (Z.leb_spec (-2147483648) (day utcnow' + n));
    destruct (Z.leb_spec (day utcnow' + n) 2147483647); simpl; (done || lia).
Qed.

Lemma sample_utcnow_wf : wf_datetime sample_utcnow.
Proof. unfold wf_datetime, sample_utcnow; simpl. repeat split; lia. Qed.

(** C3, as the code has it. The entry that [reverse] builds is
    completed and carries 0 for both snapshot balances, which the
    method leaves for a service to set; so for that entry
    [balance_after = balance_before + points] holds exactly when the
    reversed entry has 0 points. *)
Theorem reversal_snapshots self admin reason utcnow :
  let r := (reverse self admin reason utcnow).2 in
  status r = Some COMPLETED ∧
  balance_before r = Some 0 ∧ balance_after r = Some 0 ∧
  (snapshot_consistent r ↔ points self = 0).
Proof.
  simpl. repeat split; try done.
  - intros (b & Hb & Ha). simpl in *. simplify_eq. lia.
  - intros H0. exists 0. simpl. rewrite H0. done.
Qed.

(** C3 as stated fails on the completed entry that reverses a credit
    of 100 points: its snapshots are 0 and 0, its points -100. *)
Lemma reversal_snapshot_inconsistent :
  status (reverse sample_completed 1 None sample_utcnow).2 = Some COMPLETED ∧
  points (reverse sample_completed 1 None sample_utcnow).2 = -100 ∧
  balance_before (reverse sample_completed 1 None sample_utcnow).2 = Some 0 ∧
  balance_after (reverse sample_completed 1 None sample_utcnow).2 = Some 0 ∧
  ¬ snapshot_consistent (reverse sample_completed 1 None sample_utcnow).2.
Proof.
  simpl. repeat split; try done.
  intros (b & Hb & Ha). simpl in *. simplify_eq.
Qed.

(** C4, as the code has it. [reverse] does not look at the status of
    its receiver and never fails: whatever the status, it returns a
    new completed entry of kind adjusted whose points are the negation
    of the receiver's and whose related entry is the receiver, and it
    sets the status of the receiver, and nothing else of it, to
    reversed. *)
Theorem reverse_any_status self admin reason utcnow :
  let self' := (reverse self admin reason utcnow).1 in
  let r := (reverse self admin reason utcnow).2 in
  self' = with_status self REVERSED ∧
  status self' = Some REVERSED ∧
  transaction_type r = ADJUSTED ∧
  status r = Some COMPLETED ∧
  points r = - points self ∧
  related_transaction_id r = id self ∧
  user_id r = user_id self.
Proof. simpl. repeat split. Qed.

(** C4 as stated fails on an entry that is still pending: [reverse]
    returns the reversal and marks the entry reversed. *)
Lemma reverse_pending_succeeds :
  status sample_pending = Some PENDING ∧
  reverse sample_pending 1 (Some "fraud") sample_utcnow
  = (with_status sample_pending REVERSED,
     mkPointTransaction None 7 None ADJUSTED ADMIN (Some COMPLETED) (-100)
       (Some 0) (Some 0) "Reversal of transaction #4: fraud"
       None None None None (Some 4) None (Some 1) (Some "fraud")
       (Some sample_utcnow)).
Proof. split; vm_compute; reflexivity. Qed.

(** C6, as the code has it. Neither factory rejects an amount that is
    not positive.  [create_spending_transaction] returns an entry of
    kind spent with points [- |points|].  [create_earning_transaction]
    returns an entry of kind earned with points [|points|], unless an
    expiry is asked for and the expiry computation raises;
    with [expires_in_days <= 0] it always returns the entry. *)
Theorem factories_take_nonpositive user points source source' description
    campaign expires_in_days reference_id reference_type utcnow utcnow' :
  points ≤ 0 →
  match create_earning_transaction user points source description campaign
          expires_in_days reference_id reference_type utcnow utcnow' with
  | Ok e => transaction_type e = EARNED ∧ Model.points e = - points
  | Err x => 0 < expires_in_days ∧
             valid_day utcnow (day utcnow' + expires_in_days) = false
  end ∧
  (expires_in_days ≤ 0 →
   ∃ e, create_earning_transaction user points source description campaign
          expires_in_days reference_id reference_type utcnow utcnow' = Ok e) ∧
  (let e := create_spending_transaction user points source' description
              reference_id reference_type in
   transaction_type e = SPENT ∧ Model.points e = points).
Proof.
  intros Hp. split; [|split].
  - unfold create_earning_transaction, set_expiry, day_shifted, replace_day.
    case_bool_decide as Hd; simpl.
    + destruct (c_int_ok (day utcnow' + expires_in_days)) eqn:Hc.
      * destruct (valid_day utcnow (day utcnow' + expires_in_days)) eqn:Hv;
          simpl; split; (done || lia).
      * split; [done|]. by apply c_int_overflow_invalid.
    + split; [done|lia].
  - intros He. eexists. unfold create_earning_transaction.
    by rewrite bool_decide_eq_false_2 by lia.
  - simpl. split; [done|lia].
Qed.

Lemma factories_take_nonpositive_witness :
  match create_earning_transaction 7 (-50) REVIEW "x" None 0 None None
          sample_utcnow sample_utcnow with
  | Ok e => transaction_type e = EARNED ∧ points e = - (-50)
  | Err x => 0 < 0 ∧ valid_day sample_utcnow (day sample_utcnow + 0) = false
  end ∧
  (0 ≤ 0 →
   ∃ e, create_earning_transaction 7 (-50) REVIEW "x" None 0 None None
          sample_utcnow sample_utcnow = Ok e) ∧
  transaction_type
    (create_spending_transaction 7 (-50) PURCHASE "x" None None) = SPENT ∧
  points (create_spending_transaction 7 (-50) PURCHASE "x" None None) = -50.
Proof.
  apply (factories_take_nonpositive 7 (-50) REVIEW PURCHASE "x" None 0
           None None sample_utcnow sample_utcnow). lia.
Defined.

(** C6 as stated fails: asked for -50 points, the spending factory
    returns an entry of -50 points and the earning factory one of 50. *)
Lemma factories_accept_negative :
  create_spending_transaction 7 (-50) PURCHASE "x" None None
  = mkPointTransaction None 7 None SPENT PURCHASE None (-50) None None "x"
      None None None None None None None None None ∧
  create_earning_transaction 7 (-50) REVIEW "x" None 0 None None
    sample_utcnow sample_utcnow
  = Ok (mkPointTransaction None 7 None EARNED REVIEW None 50 None None "x"
          None None None None None None None None None).
Proof. split; vm_compute; reflexivity. Qed.

Lemma new_earned_is_earning user source points description campaign
    reference_id reference_type :
  is_earning_transaction
    (new_transaction user EARNED source points description campaign
       reference_id reference_type) = true.
Proof. reflexivity. Qed.

(** C9, as the code has it. Whenever the day of the month plus the
    number of days is not a day of the current month, and so whenever
    the number of days is 31 or more, the [datetime.replace] computation
    raises and produces no expiry: [ValueError] when that day number
    fits a C [int], as it does for every number of days from 31 to
    2147483616, and [OverflowError] when it does not.  [set_expiry]
    runs the computation, and raises with it, on an entry of an earning
    kind; on an entry of another kind it returns the entry as it is.
    [create_earning_transaction] with its default of 365 days always
    raises [ValueError]; and [is_expiring_soon] raises [ValueError] on
    an entry that has an expiry and is not expired, when the day plus 30
    is not a day of the month. *)
Theorem expiry_by_replace_raises self days_from_now utcnow utcnow' :
  wf_datetime utcnow' →
  valid_day utcnow (day utcnow' + days_from_now) = false ∨ 31 ≤ days_from_now →
  day_shifted utcnow utcnow' days_from_now
  = Err (raised_for (day utcnow' + days_from_now)) ∧
  (is_earning_transaction self = true →
   set_expiry self days_from_now utcnow utcnow'
   = Err (raised_for (day utcnow' + days_from_now))) ∧
  (is_earning_transaction self = false →
   set_expiry self days_from_now utcnow utcnow' = Ok self) ∧
  (-2147483648 ≤ days_from_now ≤ 2147483616 →
   raised_for (day utcnow' + days_from_now) = ValueError) ∧
  (2147483647 ≤ days_from_now →
   raised_for (day utcnow' + days_from_now) = OverflowError) ∧
  (∀ user points source description campaign reference_id reference_type,
     create_earning_transaction user points source description campaign
       default_expires_in_days reference_id reference_type utcnow utcnow'
     = Err ValueError) ∧
  (∀ e, expires_at self = Some e → truthy (is_expired self) = false →
        valid_day utcnow (day utcnow' + 30) = false →
        is_expiring_soon self utcnow utcnow' = Err ValueError).
Proof.
  intros Hwf Hbad.
  assert (day_shifted utcnow utcnow' days_from_now
          = Err (raised_for (day utcnow' + days_from_now))) as Hs.
  { destruct Hbad; [by apply day_shifted_invalid|by apply day_shifted_ge_31]. }
  split; [done|]. split; [|split; [|split; [|split; [|split]]]].
  - intros Hearn. unfold set_expiry. by rewrite Hearn, Hs.
  - intros Hother. unfold set_expiry. by rewrite Hother.
  - by apply raised_for_fits.
  - intros Hbig. apply wf_datetime_day in Hwf. unfold raised_for, c_int_ok.
    destruct (Z.leb_spec (day utcnow' + days_from_now) 2147483647);
      [lia|]. by rewrite andb_false_r.
  - intros. unfold create_earning_transaction, default_expires_in_days.
    rewrite bool_decide_eq_true_2 by lia.
    unfold set_expiry. rewrite new_earned_is_earning.
    rewrite day_shifted_ge_31 by (done || lia).
    by rewrite raised_for_fits by (done || lia).
  - intros e He Hx Hv. unfold is_expiring_soon. rewrite He, Hx.
    rewrite day_shifted_invalid by done.
    by rewrite raised_for_fits by (done || lia).
Qed.

(** On 15 September 2025 no expiry of 365 days can be set, nor one of
    2147483633 days. *)
Lemma expiry_by_replace_raises_witness :
  set_expiry sample_expiring 365 sample_utcnow sample_utcnow
  = Err ValueError ∧
  create_earning_transaction 7 100 REVIEW "review" None
    default_expires_in_days None None sample_utcnow sample_utcnow
  = Err ValueError ∧
  is_expiring_soon sample_expiring sample_utcnow sample_utcnow
  = Err ValueError.
Proof.
  destruct (expiry_by_replace_raises sample_expiring 365 sample_utcnow
              sample_utcnow) as (_ & H1 & _ & Hv & _ & H2 & H3).
  - apply sample_utcnow_wf.
  - right. lia.
  - split; [|split; [apply H2|]].
    + rewrite <- Hv by lia. apply (H1 eq_refl).
    + by apply (H3 (mkDatetime 2025 9 20 0 0 0 0)).
Defined.

(** C9 as stated fails on a number of days that takes the day number
    out of the C [int]: 2147483633 days from the 15th, on an entry of
    an earning kind, the computation runs and raises [OverflowError],
    not [ValueError]. *)
Lemma set_expiry_overflows :
  31 ≤ 2147483633 ∧
  is_earning_transaction sample_pending = true ∧
  valid_day sample_utcnow (day sample_utcnow + 2147483633) = false ∧
  set_expiry sample_pending 2147483633 sample_utcnow sample_utcnow
  = Err OverflowError ∧
  set_expiry sample_pending 2147483633 sample_utcnow sample_utcnow
  ≠ Err ValueError.
Proof.
  split; [lia|]. repeat split; try (vm_compute; reflexivity).
  vm_compute. discriminate.
Qed.

End ModelProps.

(** ** The ledger as a whole *)
Module LedgerProps.
Import Api.

Lemma foldr_max_ge (k : Z) (ks : list Z) x :
  x ∈ k :: ks → x ≤ foldr Z.max k ks.
Proof.
  induction ks as [|y ks IH]; simpl.
  - intros Hx. apply list_elem_of_singleton in Hx. lia.
  - intros Hx. apply elem_of_cons in Hx as [->|Hx].
    + assert (k ≤ foldr Z.max k ks) by (apply IH; left). lia.
    + apply elem_of_cons in Hx as [->|Hx]; [lia|].
      assert (x ≤ foldr Z.max k ks) by (apply IH; by right). lia.
Qed.

Lemma max_key_ge (m : gmap Z Transaction) i t :
  m !! i = Some t → ∃ k, max_key m = Some k ∧ i ≤ k.
Proof.
  intros Hi. unfold max_key.
  assert (i ∈ (map_to_list m).*1) as Hin.
  { apply list_elem_of_fmap. exists (i, t). split; [done|].
    by apply elem_of_map_to_list. }
  destruct ((map_to_list m).*1) as [|k ks]; [by apply elem_of_nil in Hin|].
  eexists. split; [done|]. by apply foldr_max_ge.
Qed.

Lemma new_id_above (m : gmap Z Transaction) i t :
  m !! i = Some t → i < new_id m.
Proof.
  intros Hi. destruct (max_key_ge m i t Hi) as (k & Hk & Hle).
  unfold new_id. rewrite Hk. lia.
Qed.

Lemma new_id_unused (m : gmap Z Transaction) : m !! new_id m = None.
Proof.
  destruct (m !! new_id m) as [t|] eqn:E; [|done].
  apply new_id_above in E. lia.
Qed.

(** X1. The id under which [earn_points] and [use_points] file a new
    transaction is 1 on the empty dictionary and otherwise above every
    id in use; it is never the id of a transaction that is there. *)
Theorem new_id_fresh (m : gmap Z Transaction) :
  m !! new_id m = None ∧
  (∀ i t, m !! i = Some t → i < new_id m) ∧
  (m = ∅ → new_id m = 1).
Proof.
  split; [apply new_id_unused|]. split; [apply new_id_above|].
  intros ->. reflexivity.
Qed.

(** What a call makes of a transaction that is there: nothing, or, if
    it is the pending transaction the call approves or rejects, its
    completed or failed version. *)
Lemma handle_transaction rq s i t :
  fake_transactions_db s !! i = Some t →
  fake_transactions_db (handle rq s).1 !! i = Some t ∨
  status t = "pending" ∧
  ((∃ u now, rq = Approve i u now) ∧
   fake_transactions_db (handle rq s).1 !! i
   = Some (set_status t "completed") ∨
   (∃ r u now, rq = Reject i r u now ∧
    fake_transactions_db (handle rq s).1 !! i
    = Some (append_description (set_status t "failed")
              (" (거부 사유: " +:+ r +:+ ")")))).
Proof.
  intros Hi.
  destruct rq as [u now|pd u now|pd u now|j u now|j r u now]; simpl.
  - left. unfold get_point_balance. by destruct (fake_points_db s !! u).
  - left. unfold earn_points. cbn [fst fake_transactions_db].
    rewrite lookup_insert_ne; [done|].
    intros Heq. pose proof (new_id_unused (fake_transactions_db s)).
    congruence.
  - left. unfold use_points. destruct (fake_points_db s !! u); [|done].
    case_bool_decide; [done|]. cbn [fst fake_transactions_db].
    rewrite lookup_insert_ne; [done|].
    intros Heq. pose proof (new_id_unused (fake_transactions_db s)).
    congruence.
  - unfold approve_transaction.
    destruct (fake_transactions_db s !! j) as [t0|] eqn:E; [|by left].
    case_bool_decide as Hst; [by left|].
    cbn [fst fake_transactions_db].
    destruct (decide (j = i)) as [->|Hne].
    + right. rewrite Hi in E. simplify_eq.
      split; [by destruct (decide (status t0 = "pending"))|].
      left. split; [eauto|]. apply lookup_insert_eq.
    + left. by rewrite lookup_insert_ne.
  - unfold reject_transaction.
    destruct (fake_transactions_db s !! j) as [t0|] eqn:E; [|by left].
    case_bool_decide as Hst; [by left|].
    cbn [fst fake_transactions_db].
    destruct (decide (j = i)) as [->|Hne].
    + right. rewrite Hi in E. simplify_eq.
      split; [by destruct (decide (status t0 = "pending"))|].
      right. eexists _, _, _. split; [done|]. apply lookup_insert_eq.
    + left. by rewrite lookup_insert_ne.
Qed.

(** X2. No call removes a transaction or changes its id, owner, type,
    points, source, expiry or time of creation.  A call changes a
    transaction that is there in two cases only, both on a pending one:
    its approval sets the status to completed and leaves the
    description; its rejection sets the status to failed and appends
    the reason, in brackets, to the description. *)
Theorem transactions_are_kept rq s i t :
  fake_transactions_db s !! i = Some t →
  ∃ t', fake_transactions_db (handle rq s).1 !! i = Some t' ∧
        id t' = id t ∧ owner_email t' = owner_email t ∧
        transaction_type t' = transaction_type t ∧ points t' = points t ∧
        source t' = source t ∧ source_id t' = source_id t ∧
        expires_at t' = expires_at t ∧ created_at t' = created_at t ∧
        (t' = t ∨
         status t = "pending" ∧
         ((∃ u now, rq = Approve i u now) ∧
          status t' = "completed" ∧ description t' = description t ∨
          ∃ r u now, rq = Reject i r u now ∧
            status t' = "failed" ∧
            description t' = description t +:+ " (거부 사유: " +:+ r +:+ ")")).
Proof.
  intros Hi.
  destruct (handle_transaction rq s i t Hi)
    as [H|[Hp [[Hrq H]|(r & u & now & Hrq & H)]]];
    eexists; (split; [exact H|]); simpl; repeat split; auto.
  - right. split; [done|]. left. auto.
  - right. split; [done|]. right. exists r, u, now. auto.
Qed.

Lemma transactions_are_kept_witness :
  ∃ t', fake_transactions_db
          (handle (Reject 3 "spam" "admin@linkplace.com" 9)
             (initial_store 0)).1
          !! 3 = Some t' ∧
        id t' = id transaction_3 ∧
        owner_email t' = owner_email transaction_3 ∧
        transaction_type t' = transaction_type transaction_3 ∧
        points t' = points transaction_3 ∧
        source t' = source transaction_3 ∧
        source_id t' = source_id transaction_3 ∧
        expires_at t' = expires_at transaction_3 ∧
        created_at t' = created_at transaction_3 ∧
        (t' = transaction_3 ∨
         status transaction_3 = "pending" ∧
         ((∃ u now, Reject 3 "spam" "admin@linkplace.com" 9
                    = Approve 3 u now) ∧
          status t' = "completed" ∧
          description t' = description transaction_3 ∨
          ∃ r u now, Reject 3 "spam" "admin@linkplace.com" 9
                     = Reject 3 r u now ∧
            status t' = "failed" ∧
            description t'
            = description transaction_3 +:+ " (거부 사유: " +:+ r +:+ ")")).
Proof.
  apply (transactions_are_kept (Reject 3 "spam" "admin@linkplace.com" 9)
           (initial_store 0) 3 transaction_3).
  vm_compute. reflexivity.
Defined.

(** X3. A transaction that is not pending is final: whatever calls
    follow, it stays in the dictionary exactly as it is. *)
Theorem decided_is_final rqs s i t :
  fake_transactions_db s !! i = Some t → status t ≠ "pending" →
  fake_transactions_db (run rqs s) !! i = Some t.
Proof.
  revert s. induction rqs as [|rq rqs IH]; intros s Hi Hst; [done|].
  rewrite ApiProps.run_cons. apply IH; [|done].
  destruct (handle_transaction rq s i t Hi) as [H|[Hp _]]; [done|].
  by destruct Hst.
Qed.

Lemma decided_is_final_witness :
  fake_transactions_db (run sample_requests (initial_store 0)) !! 2
  = Some (mkTransaction 2 "admin@linkplace.com" "used" (-200)
            "coupon_purchase" 10 "쿠폰 구매로 포인트 사용" "completed"
            None (0 - timedelta 1)).
Proof.
  apply (decided_is_final sample_requests (initial_store 0) 2).
  - vm_compute. reflexivity.
  - simpl. discriminate.
Defined.

(** X4. [approve_transaction] and [reject_transaction] refuse an id that
    is not in the dictionary with "Transaction not found" and a
    transaction that is not pending with "Transaction is not pending";
    in both cases neither dictionary changes. *)
Theorem decisions_refused i reason u now s :
  match fake_transactions_db s !! i with
  | None =>
      approve_transaction i u now s = (s, Err EntryNotFound) ∧
      reject_transaction i reason u now s = (s, Err EntryNotFound)
  | Some t =>
      status t ≠ "pending" →
      approve_transaction i u now s = (s, Err NotPending) ∧
      reject_transaction i reason u now s = (s, Err NotPending)
  end.
Proof.
  unfold approve_transaction, reject_transaction.
  destruct (fake_transactions_db s !! i) as [t|]; [|done].
  intros Hst. by rewrite !bool_decide_eq_true_2.
Qed.

(** X5. A user who has at least the points asked for can spend them:
    [use_points] files a completed "used" transaction of the negated
    amount under a fresh id, takes the amount off the available points
    and adds it to the used points, leaves the total, pending and
    expired points alone, and answers with the new available points. *)
Theorem use_points_spends pd u now s b :
  fake_points_db s !! u = Some b →
  pc_points pd ≤ available_points b →
  ∃ r t b',
    (use_points pd u now s).2 = Ok (RPoint r) ∧
    transaction_id r = new_id (fake_transactions_db s) ∧
    new_balance r = available_points b - pc_points pd ∧
    fake_transactions_db s !! transaction_id r = None ∧
    fake_transactions_db (use_points pd u now s).1 !! transaction_id r
    = Some t ∧
    owner_email t = u ∧ transaction_type t = "used" ∧
    status t = "completed" ∧ points t = - pc_points pd ∧
    fake_points_db (use_points pd u now s).1 !! u = Some b' ∧
    available_points b' = available_points b - pc_points pd ∧
    used_points b' = used_points b + pc_points pd ∧
    total_points b' = total_points b ∧
    pending_points b' = pending_points b ∧
    expired_points b' = expired_points b.
Proof.
  intros Hb Hle. unfold use_points. rewrite Hb.
  rewrite bool_decide_eq_false_2 by lia.
  eexists _, _, _. cbn [fst snd fake_transactions_db fake_points_db].
  split; [reflexivity|]. cbn [transaction_id new_balance].
  split; [reflexivity|]. split; [reflexivity|].
  split; [apply new_id_unused|].
  split; [apply lookup_insert_eq|]. simpl.
  do 4 (split; [reflexivity|]).
  split; [apply lookup_insert_eq|]. simpl. repeat split.
Qed.

Lemma use_points_spends_witness :
  ∃ r t b',
    (use_points coupon_for_50 "user1@example.com" 5 (initial_store 0)).2
    = Ok (RPoint r) ∧
    transaction_id r = new_id (fake_transactions_db (initial_store 0)) ∧
    new_balance r = 650 - 50 ∧
    fake_transactions_db (initial_store 0) !! transaction_id r = None ∧
    fake_transactions_db
      (use_points coupon_for_50 "user1@example.com" 5 (initial_store 0)).1
      !! transaction_id r = Some t ∧
    owner_email t = "user1@example.com" ∧ transaction_type t = "used" ∧
    status t = "completed" ∧ points t = - 50 ∧
    fake_points_db
      (use_points coupon_for_50 "user1@example.com" 5 (initial_store 0)).1
      !! "user1@example.com" = Some b' ∧
    available_points b' = 650 - 50 ∧
    used_points b' = 350 + 50 ∧
    total_points b' = 850 ∧
    pending_points b' = 200 ∧
    expired_points b' = 50.
Proof.
  apply (use_points_spends coupon_for_50 "user1@example.com" 5
           (initial_store 0)
           (mkBalance "user1@example.com" 850 650 200 350 50 0)).
  - vm_compute. reflexivity.
  - simpl. lia.
Defined.

Lemma decisions_refused_witness :
  approve_transaction 99 "admin@linkplace.com" 5 (initial_store 0)
  = (initial_store 0, Err EntryNotFound) ∧
  reject_transaction 1 "late" "admin@linkplace.com" 5 (initial_store 0)
  = (initial_store 0, Err NotPending).
Proof.
  split.
  - pose proof (decisions_refused 99 "late" "admin@linkplace.com" 5
                  (initial_store 0)) as H.
    change (fake_transactions_db (initial_store 0) !! 99) with
      (@None Transaction) in H.
    exact (proj1 H).
  - pose proof (decisions_refused 1 "late" "admin@linkplace.com" 5
                  (initial_store 0)) as H.
    change (fake_transactions_db (initial_store 0) !! 1) with
      (Some (mkTransaction 1 "admin@linkplace.com" "earned" 500
               "review_write" 1 "리뷰 작성으로 포인트 적립" "completed"
               (Some (0 + timedelta 365)) 0)) in H.
    apply H. simpl. discriminate.
Defined.

(** *** What holds of every store the endpoints can bring about *)

Lemma initial_well_filed t0 : well_filed (initial_store t0).
Proof.
  split.
  - intros i t Hi. simpl in Hi. unfold initial_transactions_db in Hi.
    repeat (apply lookup_insert_Some in Hi as [[<- <-]|[_ Hi]];
            [simpl; auto 6|]).
    by rewrite lookup_empty in Hi.
  - intros u b Hu. simpl in Hu. unfold initial_points_db in Hu.
    repeat (apply lookup_insert_Some in Hu as [[<- <-]|[_ Hu]]; [done|]).
    by rewrite lookup_empty in Hu.
Qed.

Lemma update_owner_user_email f t now (db : gmap string Balance) :
  (∀ b p, user_email (f b p now) = user_email b) →
  (∀ u b, db !! u = Some b → user_email b = u) →
  ∀ u b, update_owner f t now db !! u = Some b → user_email b = u.
Proof.
  intros Hf Hdb u b Hu.
  apply ApiProps.update_owner_lookup in Hu as [Hu|(_ & -> & b0 & Hb0 & ->)];
    [eauto|].
  rewrite Hf. eauto.
Qed.

Lemma handle_well_filed rq s : well_filed s → well_filed (handle rq s).1.
Proof.
  intros [Htx Hbal]. split.
  - intros i t' Hi.
    destruct (fake_transactions_db s !! i) as [t|] eqn:E.
    + destruct (Htx i t E) as (Hid & Hty & Hst).
      destruct (handle_transaction rq s i t E)
        as [H|[Hp [[_ H]|(r & u & now & _ & H)]]];
        rewrite H in Hi; simplify_eq; simpl.
      * done.
      * split; [done|]. split; [|auto].
        destruct Hty as [?|[_ Hc]]; [auto|congruence].
      * split; [done|]. split; [|auto].
        destruct Hty as [?|[_ Hc]]; [auto|congruence].
    + destruct rq as [u now|pd u now|pd u now|j u now|j r u now];
        simpl in Hi.
      * unfold get_point_balance in Hi.
        destruct (fake_points_db s !! u); simpl in Hi; congruence.
      * unfold earn_points in Hi. cbn [fst fake_transactions_db] in Hi.
        apply lookup_insert_Some in Hi as [[<- <-]|[_ Hi]]; [|congruence].
        simpl. auto.
      * unfold use_points in Hi.
        destruct (fake_points_db s !! u); [|simpl in Hi; congruence].
        case_bool_decide; [simpl in Hi; congruence|].
        cbn [fst fake_transactions_db] in Hi.
        apply lookup_insert_Some in Hi as [[<- <-]|[_ Hi]]; [|congruence].
        simpl. auto 6.
      * unfold approve_transaction in Hi.
        destruct (fake_transactions_db s !! j) as [t0|] eqn:Ej;
          [|simpl in Hi; congruence].
        case_bool_decide; [simpl in Hi; congruence|].
        cbn [fst fake_transactions_db] in Hi.
        apply lookup_insert_Some in Hi as [[<- _]|[_ Hi]]; congruence.
      * unfold reject_transaction in Hi.
        destruct (fake_transactions_db s !! j) as [t0|] eqn:Ej;
          [|simpl in Hi; congruence].
        case_bool_decide; [simpl in Hi; congruence|].
        cbn [fst fake_transactions_db] in Hi.
        apply lookup_insert_Some in Hi as [[<- _]|[_ Hi]]; congruence.
  - destruct rq as [u now|pd u now|pd u now|j u now|j r u now]; simpl.
    + unfold get_point_balance.
      destruct (fake_points_db s !! u) eqn:E; [done|]. simpl.
      intros v b Hv.
      apply lookup_insert_Some in Hv as [[<- <-]|[_ Hv]]; [done|eauto].
    + unfold earn_points. cbn [fst fake_points_db]. intros v b Hv.
      apply lookup_insert_Some in Hv as [[<- <-]|[_ Hv]]; [|eauto].
      simpl. destruct (fake_points_db s !! u) eqn:E; [eauto|done].
    + unfold use_points.
      destruct (fake_points_db s !! u) as [b0|] eqn:E; [|done].
      case_bool_decide; [done|]. cbn [fst fake_points_db]. intros v b Hv.
      apply lookup_insert_Some in Hv as [[<- <-]|[_ Hv]]; [|eauto].
      simpl. eauto.
    + unfold approve_transaction.
      destruct (fake_transactions_db s !! j) as [t0|]; [|done].
      case_bool_decide; [done|]. cbn [fst fake_points_db].
      by apply update_owner_user_email.
    + unfold reject_transaction.
      destruct (fake_transactions_db s !! j) as [t0|]; [|done].
      case_bool_decide; [done|]. cbn [fst fake_points_db].
      by apply update_owner_user_email.
Qed.

(** X6. In every store the endpoints can bring about, every transaction
    is filed under its own id, is "earned" or "used", and is pending,
    completed or failed; a "used" transaction is completed; and every
    balance is filed under the user it names. *)
Theorem reachable_well_filed s : reachable s → well_filed s.
Proof.
  apply ApiProps.reachable_ind'.
  - apply initial_well_filed.
  - intros rq s'. apply handle_well_filed.
Qed.

Lemma reachable_well_filed_witness :
  well_filed (run sample_requests (initial_store 0)).
Proof.
  apply reachable_well_filed. exists 0, sample_requests. reflexivity.
Defined.

Lemma update_owner_at f t now (db : gmap string Balance) v :
  update_owner f t now db !! v = db !! v ∨
  v = owner_email t ∧ transaction_type t = "earned" ∧
  ∃ b, db !! v = Some b ∧
       update_owner f t now db !! v = Some (f b (points t) now).
Proof.
  unfold update_owner. case_bool_decide as Hty; [|by left].
  destruct (db !! owner_email t) as [b|] eqn:E; [|by left].
  destruct (decide (owner_email t = v)) as [<-|Hne].
  - right. rewrite lookup_insert_eq. eauto.
  - left. by rewrite lookup_insert_ne.
Qed.

Lemma counters_lookup s s' v :
  fake_points_db s' !! v = fake_points_db s !! v →
  counters s' v = counters s v.
Proof. intros H. unfold counters, field_of. by rewrite H. Qed.

(** The five ways a call can move the counters of a user. *)
Lemma handle_counters rq s v :
  let '(tot, av, pe, us, ex) := counters s v in
  counters (handle rq s).1 v = (tot, av, pe, us, ex) ∨
  (∃ p, counters (handle rq s).1 v = (tot, av, pe + p, us, ex)) ∨
  (∃ p, p ≤ av ∧ counters (handle rq s).1 v = (tot, av - p, pe, us + p, ex)) ∨
  (∃ p, counters (handle rq s).1 v = (tot + p, av + p, pe - p, us, ex)).
Proof.
  destruct (counters s v) as [[[[tot av] pe] us] ex] eqn:Hc.
  destruct rq as [u now|pd u now|pd u now|j u now|j r u now]; cbn [handle].
  - left. rewrite <- Hc. unfold get_point_balance.
    destruct (fake_points_db s !! u) eqn:E; [done|].
    unfold counters, field_of. simpl.
    destruct (decide (u = v)) as [->|Hne].
    + by rewrite lookup_insert_eq, E.
    + by rewrite lookup_insert_ne.
  - unfold earn_points. destruct (decide (u = v)) as [->|Hne].
    + right. left. exists (pc_points pd).
      unfold counters, field_of in Hc |- *. cbn [fst fake_points_db].
      rewrite lookup_insert_eq.
      by destruct (fake_points_db s !! v); simpl in *; simplify_eq.
    + left. rewrite <- Hc. apply counters_lookup. cbn [fst fake_points_db].
      by rewrite lookup_insert_ne.
  - unfold use_points.
    destruct (fake_points_db s !! u) as [b|] eqn:E; [|by left].
    case_bool_decide as Hlt; [by left|].
    destruct (decide (u = v)) as [->|Hne].
    + right. right. left. exists (pc_points pd).
      unfold counters, field_of in Hc |- *. cbn [fst fake_points_db].
      rewrite lookup_insert_eq. rewrite E in Hc. simpl in *. simplify_eq.
      split; [lia|done].
    + left. rewrite <- Hc. apply counters_lookup. cbn [fst fake_points_db].
      by rewrite lookup_insert_ne.
  - unfold approve_transaction.
    destruct (fake_transactions_db s !! j) as [t|]; [|by left].
    case_bool_decide as Hst; [by left|].
    destruct (update_owner_at credit t now (fake_points_db s) v)
      as [H|(_ & _ & b & Hb & H)].
    + left. rewrite <- Hc. by apply counters_lookup.
    + right. right. right. exists (points t).
      unfold counters, field_of in Hc |- *. cbn [fst fake_points_db].
      rewrite H. rewrite Hb in Hc. simpl in *. by simplify_eq.
  - unfold reject_transaction.
    destruct (fake_transactions_db s !! j) as [t|]; [|by left].
    case_bool_decide as Hst; [by left|].
    destruct (update_owner_at withdraw_pending t now (fake_points_db s) v)
      as [H|(_ & _ & b & Hb & H)].
    + left. rewrite <- Hc. by apply counters_lookup.
    + right. left. exists (- points t).
      unfold counters, field_of in Hc |- *. cbn [fst fake_points_db].
      rewrite H. rewrite Hb in Hc. simpl in *. simplify_eq.
      by replace (pending_points b + - points t)
        with (pending_points b - points t) by lia.
Qed.

(** X7. Whatever calls are made, for every user the available points
    plus the used points minus the total points stay what they were,
    and so do the expired points: an approval adds the same amount to
    available and total, a spending moves its amount from available to
    used, and nothing else writes these counters. *)
Theorem counters_conserved rqs s u :
  field_of available_points (run rqs s) u + field_of used_points (run rqs s) u
    - field_of total_points (run rqs s) u
  = field_of available_points s u + field_of used_points s u
    - field_of total_points s u ∧
  field_of expired_points (run rqs s) u = field_of expired_points s u.
Proof.
  revert s. induction rqs as [|rq rqs IH]; intros s; [done|].
  rewrite ApiProps.run_cons.
  destruct (IH (handle rq s).1) as [-> ->].
  pose proof (handle_counters rq s u) as H.
  unfold counters in H.
  destruct H as [H|[[p H]|[(p & _ & H)|[p H]]]]; simplify_eq; split; lia.
Qed.

(** *** Pending points and pending transactions *)

Lemma pending_total_insert_fresh (m : gmap Z Transaction) i t u :
  m !! i = None →
  pending_total (<[i:=t]> m) u = pending_weight u t + pending_total m u.
Proof.
  intros Hi. unfold pending_total.
  rewrite map_fold_insert_L; [done| |done]. intros. lia.
Qed.

Lemma pending_total_delete (m : gmap Z Transaction) i t u :
  m !! i = Some t →
  pending_total m u = pending_weight u t + pending_total (delete i m) u.
Proof.
  intros Hi. unfold pending_total.
  rewrite (map_fold_delete_L _ _ i t m); [done| |done]. intros. lia.
Qed.

Lemma pending_total_update (m : gmap Z Transaction) i t t' u :
  m !! i = Some t →
  pending_total (<[i:=t']> m) u
  = pending_total m u - pending_weight u t + pending_weight u t'.
Proof.
  intros Hi. rewrite <- insert_delete_eq.
  rewrite pending_total_insert_fresh by apply lookup_delete_eq.
  rewrite (pending_total_delete m i t u Hi). lia.
Qed.

Lemma pending_weight_decided u t :
  status t ≠ "pending" → pending_weight u t = 0.
Proof.
  intros Hst. unfold pending_weight.
  rewrite bool_decide_eq_false_2; [done|]. by intros (_ & ? & _).
Qed.

Lemma pending_weight_credit u t :
  status t = "pending" → transaction_type t = "earned" →
  pending_weight u t = if decide (owner_email t = u) then points t else 0.
Proof.
  intros Hst Hty. unfold pending_weight.
  destruct (decide (owner_email t = u)).
  - by rewrite bool_decide_eq_true_2.
  - rewrite bool_decide_eq_false_2; [done|]. by intros (? & _).
Qed.

(** The pending points of [u] less the points of the pending credits of
    [u]. *)
Lemma handle_pending_gap rq s u :
  pending_are_credits s →
  field_of pending_points (handle rq s).1 u
    - pending_total (fake_transactions_db (handle rq s).1) u
  = field_of pending_points s u - pending_total (fake_transactions_db s) u.
Proof.
  intros Inv.
  destruct rq as [v now|pd v now|pd v now|j v now|j r v now]; cbn [handle].
  - unfold get_point_balance.
    destruct (fake_points_db s !! v) eqn:E; [done|].
    cbn [fst fake_transactions_db]. unfold field_of. simpl.
    destruct (decide (v = u)) as [->|Hne].
    + by rewrite lookup_insert_eq, E.
    + by rewrite lookup_insert_ne.
  - unfold earn_points. cbn [fst fake_transactions_db].
    rewrite pending_total_insert_fresh by apply new_id_unused.
    rewrite pending_weight_credit by done. cbn [owner_email points].
    unfold field_of. cbn [fake_points_db].
    destruct (decide (v = u)) as [->|Hne].
    + rewrite lookup_insert_eq. simpl.
      destruct (fake_points_db s !! u); simpl; lia.
    + rewrite lookup_insert_ne by done. lia.
  - unfold use_points.
    destruct (fake_points_db s !! v) as [b|] eqn:E; [|done].
    case_bool_decide; [done|]. cbn [fst fake_transactions_db].
    rewrite pending_total_insert_fresh by apply new_id_unused.
    rewrite pending_weight_decided by done.
    unfold field_of. cbn [fake_points_db].
    destruct (decide (v = u)) as [->|Hne].
    + rewrite lookup_insert_eq, E. simpl. lia.
    + rewrite lookup_insert_ne by done. lia.
  - unfold approve_transaction.
    destruct (fake_transactions_db s !! j) as [t|] eqn:E; [|done].
    case_bool_decide as Hst; [done|].
    assert (status t = "pending") as Hp
      by (destruct (decide (status t = "pending")); [done|by destruct Hst]).
    destruct (Inv j t E Hp) as [Hty [b Hb]].
    cbn [fst fake_transactions_db fake_points_db].
    rewrite (pending_total_update _ j t) by done.
    rewrite (pending_weight_decided u (set_status t "completed")) by done.
    rewrite pending_weight_credit by done.
    unfold field_of, update_owner. rewrite Hty, Hb. simpl.
    destruct (decide (owner_email t = u)) as [<-|Hne].
    + rewrite lookup_insert_eq, Hb. simpl. lia.
    + rewrite lookup_insert_ne by done. lia.
  - unfold reject_transaction.
    destruct (fake_transactions_db s !! j) as [t|] eqn:E; [|done].
    case_bool_decide as Hst; [done|].
    assert (status t = "pending") as Hp
      by (destruct (decide (status t = "pending")); [done|by destruct Hst]).
    destruct (Inv j t E Hp) as [Hty [b Hb]].
    cbn [fst fake_transactions_db fake_points_db].
    rewrite (pending_total_update _ j t) by done.
    rewrite (pending_weight_decided u (append_description _ _)) by done.
    rewrite pending_weight_credit by done.
    unfold field_of, update_owner. rewrite Hty, Hb. simpl.
    destruct (decide (owner_email t = u)) as [<-|Hne].
    + rewrite lookup_insert_eq, Hb. simpl. lia.
    + rewrite lookup_insert_ne by done. lia.
Qed.

Lemma run_pending_gap rqs s u :
  pending_are_credits s →
  field_of pending_points (run rqs s) u
    - pending_total (fake_transactions_db (run rqs s)) u
  = field_of pending_points s u - pending_total (fake_transactions_db s) u.
Proof.
  revert s. induction rqs as [|rq rqs IH]; intros s Inv; [done|].
  rewrite ApiProps.run_cons.
  rewrite IH by by apply ApiProps.handle_pending_are_credits.
  by apply handle_pending_gap.
Qed.

(** X8. Starting from a store in which every pending transaction is a
    credit whose owner has a balance, the pending points of a user and
    the points of that user's pending credits move together: whatever
    calls are made, their difference stays what it was. *)
Theorem pending_points_track_credits rqs s u :
  pending_are_credits s →
  field_of pending_points (run rqs s) u
    - pending_total (fake_transactions_db (run rqs s)) u
  = field_of pending_points s u - pending_total (fake_transactions_db s) u.
Proof. apply run_pending_gap. Qed.

Lemma pending_points_track_credits_witness :
  field_of pending_points (run sample_requests (initial_store 0))
    "user1@example.com"
  - pending_total
      (fake_transactions_db (run sample_requests (initial_store 0)))
      "user1@example.com"
  = field_of pending_points (initial_store 0) "user1@example.com"
    - pending_total (fake_transactions_db (initial_store 0))
        "user1@example.com".
Proof.
  apply (pending_points_track_credits sample_requests (initial_store 0)
           "user1@example.com").
  apply ApiProps.initial_pending_are_credits.
Defined.

(** X9. For a user who has no balance when the module is loaded, the
    pending points are at all times exactly the points of that user's
    pending credits. *)
Theorem new_user_pending_points t0 rqs u :
  fake_points_db (initial_store t0) !! u = None →
  field_of pending_points (run rqs (initial_store t0)) u
  = pending_total (fake_transactions_db (run rqs (initial_store t0))) u.
Proof.
  intros Hnew.
  pose proof (run_pending_gap rqs (initial_store t0) u
                (ApiProps.initial_pending_are_credits t0)) as Hgap.
  assert (field_of pending_points (initial_store t0) u = 0) as H0
    by (unfold field_of; by rewrite Hnew).
  assert (pending_total (fake_transactions_db (initial_store t0)) u = 0)
    as H1.
  { simpl. unfold initial_transactions_db.
    rewrite !pending_total_insert_fresh by done.
    rewrite !pending_weight_decided by done.
    assert (u ≠ "user1@example.com") as Hne.
    { intros ->. by vm_compute in Hnew. }
    unfold pending_weight.
    rewrite bool_decide_eq_false_2 by (by intros [? _]). done. }
  lia.
Qed.

Lemma new_user_pending_points_witness :
  field_of pending_points (run overdraft_requests (initial_store 0))
    "eve@example.com"
  = pending_total
      (fake_transactions_db (run overdraft_requests (initial_store 0)))
      "eve@example.com".
Proof.
  apply (new_user_pending_points 0 overdraft_requests "eve@example.com").
  vm_compute. reflexivity.
Defined.

(** X10. A call writes the balance of one user at most: the caller's
    for a read, an earn or a spend, the owner's for an approval or a
    rejection.  The balance of every other user, and whether there is
    one, is as before. *)
Theorem other_users_untouched rq s v :
  written_user rq s ≠ Some v →
  fake_points_db (handle rq s).1 !! v = fake_points_db s !! v.
Proof.
  intros Hv.
  destruct rq as [u now|pd u now|pd u now|j u now|j r u now];
    cbn [handle written_user] in *.
  - unfold get_point_balance. destruct (fake_points_db s !! u); [done|].
    simpl. rewrite lookup_insert_ne; [done|congruence].
  - unfold earn_points. cbn [fst fake_points_db].
    rewrite lookup_insert_ne; [done|congruence].
  - unfold use_points. destruct (fake_points_db s !! u); [|done].
    case_bool_decide; [done|]. cbn [fst fake_points_db].
    rewrite lookup_insert_ne; [done|congruence].
  - unfold approve_transaction.
    destruct (fake_transactions_db s !! j) as [t|]; [|done].
    case_bool_decide as Hst; [done|]. cbn [fst fake_points_db].
    destruct (update_owner_at credit t now (fake_points_db s) v)
      as [H|(-> & _)]; [done|]. by destruct Hv.
  - unfold reject_transaction.
    destruct (fake_transactions_db s !! j) as [t|]; [|done].
    case_bool_decide as Hst; [done|]. cbn [fst fake_points_db].
    destruct (update_owner_at withdraw_pending t now (fake_points_db s) v)
      as [H|(-> & _)]; [done|]. by destruct Hv.
Qed.

Lemma other_users_untouched_witness :
  fake_points_db
    (handle (Approve 3 "admin@linkplace.com" 9) (initial_store 0)).1
    !! "admin@linkplace.com"
  = fake_points_db (initial_store 0) !! "admin@linkplace.com".
Proof.
  apply (other_users_untouched (Approve 3 "admin@linkplace.com" 9)
           (initial_store 0) "admin@linkplace.com").
  vm_compute. discriminate.
Defined.

(** X11. Reading a balance twice gives the same answer, and the second
    read changes nothing: only the first read of a user without a
    balance writes. *)
Theorem get_point_balance_again u now now' s :
  get_point_balance u now' (get_point_balance u now s).1
  = get_point_balance u now s.
Proof.
  unfold get_point_balance at 2 3.
  destruct (fake_points_db s !! u) as [b|] eqn:E; cbn [fst].
  - unfold get_point_balance. by rewrite E.
  - unfold get_point_balance. cbn [fake_points_db].
    by rewrite lookup_insert_eq.
Qed.

(** X12. Earning and then rejecting the entry just filed leaves all five
    counters of the user as they were before the earn; the entry stays
    in the dictionary as a failed one. *)
Theorem earn_then_reject pd u now reason admin now' s :
  let i := new_id (fake_transactions_db s) in
  let s1 := (earn_points pd u now s).1 in
  let s2 := (reject_transaction i reason admin now' s1).1 in
  counters s2 u = counters s u ∧
  status <$> fake_transactions_db s2 !! i = Some "failed" ∧
  (reject_transaction i reason admin now' s1).2
  = Ok (RMessage "Transaction rejected successfully").
Proof.
  intros i s1 s2.
  destruct (ApiProps.earn_points_files pd u now s)
    as (t & Ht & Hst & Hty & Hp & Ho & _).
  fold i s1 in Ht.
  assert (fake_points_db s1 !! u
          = Some (mkBalance (user_email (default (zero_balance u now)
                                           (fake_points_db s !! u)))
                    (field_of total_points s u)
                    (field_of available_points s u)
                    (field_of pending_points s u + pc_points pd)
                    (field_of used_points s u)
                    (field_of expired_points s u) now)) as Hb1.
  { unfold s1, earn_points, field_of. cbn [fst fake_points_db].
    rewrite lookup_insert_eq. by destruct (fake_points_db s !! u). }
  unfold s2.
  rewrite (ApiProps.reject_pending_credit i reason admin now' s1 t _)
    by (done || by rewrite Ho).
  cbn [fst snd fake_transactions_db].
  split; [|split; [by rewrite lookup_insert_eq|done]].
  rewrite Ho, Hp. unfold counters. rewrite !ApiProps.field_of_insert.
  simpl. repeat f_equal. lia.
Qed.

End LedgerProps.

(** ** The read-only endpoints *)
Module QueryProps.
Import Api.

Lemma elem_of_filter_if q P (l : list Transaction) t :
  t ∈ filter_if q P l ↔ t ∈ l ∧ passes q P t.
Proof.
  unfold filter_if, passes. destruct q as [[|c r]|].
  - tauto.
  - rewrite list_elem_of_filter. tauto.
  - tauto.
Qed.

Lemma insert_newest_perm x l : insert_newest x l ≡ₚ x :: l.
Proof.
  induction l as [|y l IH]; simpl; [done|].
  case_bool_decide; [done|]. rewrite IH. apply Permutation_swap.
Qed.

Lemma newest_first_perm l : newest_first l ≡ₚ l.
Proof.
  induction l as [|x l IH]; simpl; [done|].
  rewrite insert_newest_perm. by rewrite IH.
Qed.

Lemma insert_newest_sorted x l :
  StronglySorted not_older l → StronglySorted not_older (insert_newest x l).
Proof.
  induction 1 as [|y l Hl IH Hy]; simpl.
  - repeat constructor.
  - case_bool_decide as Hle.
    + constructor; [by constructor|]. constructor; [done|].
      eapply Forall_impl; [exact Hy|]. unfold not_older. intros z Hz. lia.
    + constructor; [done|]. rewrite insert_newest_perm.
      constructor; [|done]. unfold not_older. lia.
Qed.

Lemma newest_first_sorted l : StronglySorted not_older (newest_first l).
Proof.
  induction l as [|x l IH]; simpl; [constructor|].
  by apply insert_newest_sorted.
Qed.

Lemma slice_sorted (l : list Transaction) a b :
  StronglySorted not_older l → StronglySorted not_older (slice l a b).
Proof.
  intros Hl. unfold slice.
  rewrite <- (take_drop (Z.to_nat a) l) in Hl.
  apply StronglySorted_app_1_r in Hl.
  rewrite <- (take_drop (Z.to_nat (b - a)) (drop (Z.to_nat a) l)) in Hl.
  by apply StronglySorted_app_1_l in Hl.
Qed.

Lemma elem_of_slice {A} (l : list A) a b x : x ∈ slice l a b → x ∈ l.
Proof.
  unfold slice. intros Hx.
  apply elem_of_take in Hx as (i & Hi & _).
  rewrite lookup_drop in Hi. by eapply list_elem_of_lookup_2.
Qed.

(** The pages up to the [n]th, one after the other, are the first
    [n * size] entries. *)
Lemma pages_concat {A} (l : list A) (size : Z) (n : nat) :
  1 ≤ size →
  concat ((λ p : nat, slice l ((Z.of_nat p - 1) * size)
                        ((Z.of_nat p - 1) * size + size)) <$> seq 1 n)
  = take (n * Z.to_nat size) l.
Proof.
  intros Hsize. induction n as [|n IH]; [done|].
  rewrite seq_S, fmap_app, concat_app, IH. simpl.
  rewrite app_nil_r. unfold slice.
  replace (Z.to_nat ((Z.of_nat (S n) - 1) * size + size
                     - (Z.of_nat (S n) - 1) * size))
    with (Z.to_nat size) by lia.
  replace (Z.to_nat ((Z.of_nat (S n) - 1) * size))
    with (n * Z.to_nat size)%nat by nia.
  rewrite take_take_drop. f_equal. lia.
Qed.

Lemma elem_of_map_values (m : gmap Z Transaction) t :
  t ∈ map_values m ↔ ∃ i, m !! i = Some t.
Proof.
  unfold map_values. rewrite list_elem_of_fmap. split.
  - intros ([i t'] & -> & Hin). exists i. by apply elem_of_map_to_list.
  - intros [i Hi]. exists (i, t). split; [done|].
    by apply elem_of_map_to_list.
Qed.

Lemma map_values_enumerates : enumerates map_values.
Proof. by intros m. Qed.

(** [(total + size - 1) // size] pages of [size] are just enough for
    [total] entries. *)
Lemma pages_cover (total size : Z) :
  1 ≤ size →
  ((total + size - 1) `div` size - 1) * size < total
  ≤ (total + size - 1) `div` size * size.
Proof.
  intros Hsize.
  pose proof (Z.div_mod (total + size - 1) size ltac:(lia)).
  pose proof (Z.mod_pos_bound (total + size - 1) size ltac:(lia)).
  lia.
Qed.

Section History.
Variable values : gmap Z Transaction → list Transaction.
Variable date_text : stamp → string.
Hypothesis values_ok : enumerates values.

Lemma elem_of_values m t : t ∈ values m ↔ ∃ i, m !! i = Some t.
Proof. rewrite (values_ok m). apply elem_of_map_values. Qed.

(** What [get_point_history] selects. *)
Lemma elem_of_history_matches u qt qs qst sd ed s t :
  t ∈ history_matches values date_text u qt qs qst sd ed s ↔
  (∃ i, fake_transactions_db s !! i = Some t) ∧
  owner_email t = u ∧
  passes qt (λ x t, bool_decide (transaction_type t = x)) t ∧
  passes qs (λ x t, bool_decide (source t = x)) t ∧
  passes qst (λ x t, bool_decide (status t = x)) t ∧
  passes sd (λ x t, String.leb x (date_text (created_at t))) t ∧
  passes ed (λ x t, String.leb (date_text (created_at t)) x) t.
Proof.
  unfold history_matches.
  rewrite !elem_of_filter_if, list_elem_of_filter, elem_of_values. tauto.
Qed.

Lemma history_page u qt qs qst sd ed page size s :
  h_transactions
    (get_point_history values date_text u qt qs qst sd ed page size s)
  = slice (newest_first
             (history_matches values date_text u qt qs qst sd ed s))
      ((page - 1) * size) ((page - 1) * size + size).
Proof. reflexivity. Qed.

Lemma history_total u qt qs qst sd ed page size s :
  h_total (get_point_history values date_text u qt qs qst sd ed page size s)
  = Z.of_nat (length (history_matches values date_text u qt qs qst sd ed s)).
Proof.
  unfold get_point_history. cbn [h_total].
  by rewrite (Permutation_length (newest_first_perm _)).
Qed.

(** X13. Every transaction that [get_point_history] lists, on whatever
    page, is in the dictionary, belongs to the caller, and passes each
    of the five filters that was given a value. *)
Theorem history_lists_matches u qt qs qst sd ed page size s t :
  t ∈ h_transactions
        (get_point_history values date_text u qt qs qst sd ed page size s) →
  (∃ i, fake_transactions_db s !! i = Some t) ∧
  owner_email t = u ∧
  passes qt (λ x t, bool_decide (transaction_type t = x)) t ∧
  passes qs (λ x t, bool_decide (source t = x)) t ∧
  passes qst (λ x t, bool_decide (status t = x)) t ∧
  passes sd (λ x t, String.leb x (date_text (created_at t))) t ∧
  passes ed (λ x t, String.leb (date_text (created_at t)) x) t.
Proof.
  rewrite history_page. intros Ht%elem_of_slice.
  rewrite newest_first_perm in Ht. by apply elem_of_history_matches.
Qed.

(** X14. For [page >= 1] and [size >= 1], a page of the history holds
    at most [size] transactions; [total] is the number of selected
    transactions whatever the page; [pages] is the least number of
    pages of that size that hold them all; and a page past the last
    is empty. *)
Theorem history_page_bounds u qt qs qst sd ed page size s :
  1 ≤ page → 1 ≤ size →
  let h := get_point_history values date_text u qt qs qst sd ed page size s in
  Z.of_nat (length (h_transactions h)) ≤ size ∧
  h_total h
  = Z.of_nat (length (history_matches values date_text u qt qs qst sd ed s)) ∧
  (h_pages h - 1) * size < h_total h ≤ h_pages h * size ∧
  (h_pages h < page → h_transactions h = []).
Proof.
  intros Hpage Hsize h.
  assert (h_pages h = (h_total h + size - 1) `div` size) as Hpages
    by reflexivity.
  pose proof (pages_cover (h_total h) size Hsize) as Hcover.
  split; [|split; [apply history_total|split; [lia|]]].
  - unfold h. rewrite history_page. unfold slice.
    rewrite length_take. lia.
  - intros Hlast. unfold h. rewrite history_page. unfold slice.
    rewrite drop_ge; [by rewrite take_nil|].
    assert (h_total h
            = Z.of_nat (length (newest_first
                (history_matches values date_text u qt qs qst sd ed s))))
      as Htot by reflexivity.
    nia.
Qed.

(** X15. The transactions on a page of the history stand newest
    first: none is older than one that stands after it. *)
Theorem history_newest_first u qt qs qst sd ed page size s :
  StronglySorted not_older
    (h_transactions
       (get_point_history values date_text u qt qs qst sd ed page size s)).
Proof. rewrite history_page. apply slice_sorted, newest_first_sorted. Qed.

(** X16. For [size >= 1], the pages 1 to [pages] of the history, one
    after the other, are the selected transactions newest first: each
    transaction the filters select, as often as the dictionary holds
    it, on one page and nowhere else. *)
Theorem history_pages_partition u qt qs qst sd ed size s :
  1 ≤ size →
  let pages :=
    h_pages (get_point_history values date_text u qt qs qst sd ed 1 size s)
  in
  concat ((λ p : nat,
             h_transactions
               (get_point_history values date_text u qt qs qst sd ed
                  (Z.of_nat p) size s)) <$> seq 1 (Z.to_nat pages))
  = newest_first (history_matches values date_text u qt qs qst sd ed s) ∧
  newest_first (history_matches values date_text u qt qs qst sd ed s)
  ≡ₚ history_matches values date_text u qt qs qst sd ed s.
Proof.
  intros Hsize pages. split; [|apply newest_first_perm].
  set (l := newest_first
              (history_matches values date_text u qt qs qst sd ed s)).
  assert (pages = (Z.of_nat (length l) + size - 1) `div` size) as Hpages
    by reflexivity.
  pose proof (pages_cover (Z.of_nat (length l)) size Hsize) as Hcover.
  etrans; [exact (pages_concat l size (Z.to_nat pages) Hsize)|].
  apply take_ge. nia.
Qed.

End History.

Lemma history_lists_matches_witness :
  (∃ i, fake_transactions_db (initial_store 0) !! i = Some transaction_3) ∧
  owner_email transaction_3 = "user1@example.com" ∧
  passes (Some "earned") (λ x t, bool_decide (transaction_type t = x))
    transaction_3 ∧
  passes None (λ x t, bool_decide (source t = x)) transaction_3 ∧
  passes (Some "pending") (λ x t, bool_decide (status t = x)) transaction_3 ∧
  passes (Some "2025-01-01")
    (λ x t, String.leb x (sample_date (created_at t))) transaction_3 ∧
  passes None (λ x t, String.leb (sample_date (created_at t)) x)
    transaction_3.
Proof.
  apply (history_lists_matches map_values sample_date map_values_enumerates
           "user1@example.com" (Some "earned") None (Some "pending")
           (Some "2025-01-01") None 1 20 (initial_store 0) transaction_3).
  vm_compute. left.
Defined.

Lemma history_page_bounds_witness :
  Z.of_nat (length (h_transactions
    (get_point_history map_values sample_date "admin@linkplace.com"
       None None None None None 2 1 (initial_store 0)))) ≤ 1 ∧
  h_total (get_point_history map_values sample_date "admin@linkplace.com"
             None None None None None 2 1 (initial_store 0))
  = Z.of_nat (length (history_matches map_values sample_date
                        "admin@linkplace.com" None None None None None
                        (initial_store 0))) ∧
  (h_pages (get_point_history map_values sample_date "admin@linkplace.com"
              None None None None None 2 1 (initial_store 0)) - 1) * 1
  < h_total (get_point_history map_values sample_date "admin@linkplace.com"
               None None None None None 2 1 (initial_store 0))
  ≤ h_pages (get_point_history map_values sample_date "admin@linkplace.com"
               None None None None None 2 1 (initial_store 0)) * 1 ∧
  (h_pages (get_point_history map_values sample_date "admin@linkplace.com"
              None None None None None 2 1 (initial_store 0)) < 2 →
   h_transactions (get_point_history map_values sample_date
                     "admin@linkplace.com" None None None None None 2 1
                     (initial_store 0)) = []).
Proof.
  apply (history_page_bounds map_values sample_date "admin@linkplace.com"
           None None None None None 2 1 (initial_store 0)); lia.
Defined.

Lemma history_pages_partition_witness :
  concat ((λ p : nat,
             h_transactions
               (get_point_history map_values sample_date
                  "admin@linkplace.com" None None None None None
                  (Z.of_nat p) 1 (initial_store 0)))
          <$> seq 1 (Z.to_nat (h_pages
                (get_point_history map_values sample_date
                   "admin@linkplace.com" None None None None None 1 1
                   (initial_store 0)))))
  = newest_first (history_matches map_values sample_date
                    "admin@linkplace.com" None None None None None
                    (initial_store 0)) ∧
  newest_first (history_matches map_values sample_date
                  "admin@linkplace.com" None None None None None
                  (initial_store 0))
  ≡ₚ history_matches map_values sample_date "admin@linkplace.com"
       None None None None None (initial_store 0).
Proof.
  apply (history_pages_partition map_values sample_date
           "admin@linkplace.com" None None None None None 1
           (initial_store 0)). lia.
Defined.

Section Expiring.
Variable values : gmap Z Transaction → list Transaction.
Hypothesis values_ok : enumerates values.

Lemma expires_by_true u c t :
  expires_by u c t = true ↔
  owner_email t = u ∧ transaction_type t = "earned" ∧
  status t = "completed" ∧ ∃ e, expires_at t = Some e ∧ e ≤ c.
Proof.
  unfold expires_by. rewrite !andb_true_iff, !bool_decide_eq_true.
  destruct (expires_at t) as [e|].
  - rewrite bool_decide_eq_true. split.
    + intros [[[? ?] ?] ?]. eauto 10.
    + intros (? & ? & ? & e' & [= <-] & ?). auto.
  - split; [intros [_ [=]]|intros (_ & _ & _ & e & [=] & _)].
Qed.

Lemma expiring_ok u days now s r :
  get_expiring_points values u days now s = Ok r →
  r = mkExpiring
        (foldr Z.add 0
           (points <$> filter (λ t, expires_by u (now + timedelta days) t
                                    = true)
                         (values (fake_transactions_db s))))
        (filter (λ t, expires_by u (now + timedelta days) t = true)
                (values (fake_transactions_db s)))
        days.
Proof.
  unfold get_expiring_points.
  destruct (timedelta_days_ok days && datetime_ok (now + timedelta days));
    [|done].
  by intros [= <-].
Qed.

(** X17. When [get_expiring_points] answers, it lists exactly the
    transactions of the dictionary that belong to the caller, are
    "earned" and completed, and have an expiry no later than [days]
    days from now; a pending, failed or "used" transaction, or one
    without expiry, is never listed.  The total it reports is the sum
    of the points of the listed transactions. *)
Theorem expiring_lists u days now s r :
  get_expiring_points values u days now s = Ok r →
  (∀ t, t ∈ expiring_transactions r ↔
        (∃ i, fake_transactions_db s !! i = Some t) ∧
        owner_email t = u ∧ transaction_type t = "earned" ∧
        status t = "completed" ∧
        ∃ e, expires_at t = Some e ∧ e ≤ now + timedelta days) ∧
  total_expiring_points r
  = foldr Z.add 0 (points <$> expiring_transactions r) ∧
  expires_within_days r = days.
Proof.
  intros ->%expiring_ok. cbn. split; [|done].
  intros t. rewrite list_elem_of_filter, expires_by_true.
  rewrite (values_ok _), elem_of_map_values. tauto.
Qed.

(** X18. Asking for fewer days never lists more: what
    [get_expiring_points] lists for [d1] days is what it lists for
    [d2 >= d1] days, less the transactions that expire after [d1]
    days, in the same order. *)
Theorem expiring_monotone u d1 d2 now s r1 r2 :
  d1 ≤ d2 →
  get_expiring_points values u d1 now s = Ok r1 →
  get_expiring_points values u d2 now s = Ok r2 →
  expiring_transactions r1
  = filter (λ t, expires_by u (now + timedelta d1) t = true)
      (expiring_transactions r2).
Proof.
  intros Hd ->%expiring_ok ->%expiring_ok. cbn.
  rewrite list_filter_filter. apply list_filter_iff. intros t.
  rewrite !expires_by_true. unfold timedelta. split; [|tauto].
  intros (? & ? & ? & e & ? & ?). repeat split; eauto.
  exists e. split; [done|]. lia.
Qed.

End Expiring.

Lemma expiring_lists_witness :
  (∀ t, t ∈ [transaction_1] ↔
        (∃ i, fake_transactions_db (initial_store 0) !! i = Some t) ∧
        owner_email t = "admin@linkplace.com" ∧
        transaction_type t = "earned" ∧ status t = "completed" ∧
        ∃ e, expires_at t = Some e ∧ e ≤ 0 + timedelta 400) ∧
  500 = foldr Z.add 0 (points <$> [transaction_1]) ∧
  400 = 400.
Proof.
  apply (expiring_lists map_values map_values_enumerates
           "admin@linkplace.com" 400 0 (initial_store 0)
           (mkExpiring 500 [transaction_1] 400)).
  vm_compute. reflexivity.
Defined.

Lemma expiring_monotone_witness :
  [] = filter (λ t, expires_by "admin@linkplace.com" (0 + timedelta 100) t
                    = true) [transaction_1].
Proof.
  apply (expiring_monotone map_values "admin@linkplace.com" 100 400 0
           (initial_store 0) (mkExpiring 0 [] 100)
           (mkExpiring 500 [transaction_1] 400)).
  - lia.
  - vm_compute. reflexivity.
  - vm_compute. reflexivity.
Defined.

End QueryProps.

(** ** More of the entity *)
Module EntityProps.
Import Model.

(** X19. When [set_expiry] succeeds on an entry of an earning kind, the
    expiry it sets is the first clock reading moved to another day of
    the same month of the same year, the day of the second reading plus
    [days_from_now]; nothing else of the entry changes.  With a clock
    that reads a real date, [days_from_now] is then at most 30. *)
Theorem set_expiry_same_month self days_from_now utcnow utcnow' e :
  is_earning_transaction self = true →
  wf_datetime utcnow' →
  set_expiry self days_from_now utcnow utcnow' = Ok e →
  ∃ x, expires_at e = Some x ∧ e = with_expires_at self x ∧
       year x = year utcnow ∧ month x = month utcnow ∧
       day x = day utcnow' + days_from_now ∧
       1 ≤ day x ≤ days_in_month (year utcnow) (month utcnow) ∧
       hour x = hour utcnow ∧ minute x = minute utcnow ∧
       second x = second utcnow ∧ microsecond x = microsecond utcnow ∧
       days_from_now ≤ 30.
Proof.
  intros Hearn Hwf. unfold set_expiry, day_shifted, replace_day.
  rewrite Hearn.
  destruct (c_int_ok (day utcnow' + days_from_now)); [|done].
  destruct (valid_day utcnow (day utcnow' + days_from_now)) eqn:Hv; [|done].
  intros [= <-]. eexists. split; [reflexivity|]. split; [reflexivity|].
  simpl. unfold valid_day in Hv. apply andb_true_iff in Hv as [H1 H2].
  apply Z.leb_le in H1, H2.
  pose proof (ModelProps.days_in_month_le_31 (year utcnow) (month utcnow)).
  apply ModelProps.wf_datetime_day in Hwf.
  repeat split; try done; lia.
Qed.

Lemma set_expiry_same_month_witness :
  ∃ x, expires_at (with_expires_at sample_pending
                     (mkDatetime 2025 9 25 10 25 37 0)) = Some x ∧
       with_expires_at sample_pending (mkDatetime 2025 9 25 10 25 37 0)
       = with_expires_at sample_pending x ∧
       year x = year sample_utcnow ∧ month x = month sample_utcnow ∧
       day x = day sample_utcnow + 10 ∧
       1 ≤ day x ≤ days_in_month (year sample_utcnow) (month sample_utcnow) ∧
       hour x = hour sample_utcnow ∧ minute x = minute sample_utcnow ∧
       second x = second sample_utcnow ∧
       microsecond x = microsecond sample_utcnow ∧
       10 ≤ 30.
Proof.
  apply (set_expiry_same_month sample_pending 10 sample_utcnow sample_utcnow
           (with_expires_at sample_pending (mkDatetime 2025 9 25 10 25 37 0))).
  - reflexivity.
  - apply ModelProps.sample_utcnow_wf.
  - vm_compute. reflexivity.
Defined.

(** X20. [is_expiring_soon] answers [False], whatever the clock, for an
    entry without expiry and for an entry marked expired.  For an entry
    with an expiry that is not marked expired it answers only when the
    clock stands on the first of a month of 31 days, and then tells
    whether the expiry is no later than the 31st of that month at the
    time of the clock; on every other day it raises [ValueError]. *)
Theorem is_expiring_soon_answers self utcnow utcnow' :
  wf_datetime utcnow' →
  (expires_at self = None ∨ truthy (is_expired self) = true →
   is_expiring_soon self utcnow utcnow' = Ok false) ∧
  (∀ e, expires_at self = Some e → truthy (is_expired self) = false →
     (day utcnow' = 1 ∧ days_in_month (year utcnow) (month utcnow) = 31 →
      is_expiring_soon self utcnow utcnow'
      = Ok (datetime_le e (mkDatetime (year utcnow) (month utcnow) 31
                             (hour utcnow) (minute utcnow) (second utcnow)
                             (microsecond utcnow)))) ∧
     (¬ (day utcnow' = 1 ∧ days_in_month (year utcnow) (month utcnow) = 31) →
      is_expiring_soon self utcnow utcnow' = Err ValueError)).
Proof.
  intros Hwf. pose proof (ModelProps.wf_datetime_day _ Hwf) as Hday.
  pose proof (ModelProps.days_in_month_le_31 (year utcnow) (month utcnow))
    as Hdim.
  split.
  - unfold is_expiring_soon. intros [Hnone|Hexp].
    + by rewrite Hnone.
    + destruct (expires_at self); [|done]. by rewrite Hexp.
  - intros e He Hx. unfold is_expiring_soon. rewrite He, Hx. split.
    + intros [Hd H31]. unfold day_shifted, replace_day, valid_day.
      rewrite Hd, H31. reflexivity.
    + intros Hnot.
      rewrite ModelProps.day_shifted_fits_invalid; [done| |].
      * unfold c_int_ok. apply andb_true_iff.
        split; apply Z.leb_le; lia.
      * unfold valid_day. apply andb_false_iff. right. apply Z.leb_gt. lia.
Qed.

Lemma is_expiring_soon_answers_witness :
  is_expiring_soon sample_pending sample_utcnow sample_utcnow = Ok false ∧
  is_expiring_soon sample_expiring first_of_october first_of_october
  = Ok true ∧
  is_expiring_soon sample_expiring sample_utcnow sample_utcnow
  = Err ValueError.
Proof.
  split; [|split].
  - apply (is_expiring_soon_answers sample_pending sample_utcnow
             sample_utcnow ModelProps.sample_utcnow_wf).
    by left.
  - assert (wf_datetime first_of_october) as Hwf
      by (unfold wf_datetime, first_of_october; simpl; repeat split; lia).
    destruct (is_expiring_soon_answers sample_expiring first_of_october
                first_of_october Hwf) as [_ H].
    apply (H (mkDatetime 2025 9 20 0 0 0 0) eq_refl eq_refl).
    by split.
  - destruct (is_expiring_soon_answers sample_expiring sample_utcnow
                sample_utcnow ModelProps.sample_utcnow_wf) as [_ H].
    apply (H (mkDatetime 2025 9 20 0 0 0 0) eq_refl eq_refl).
    intros [Hd _]. vm_compute in Hd. discriminate.
Defined.

(** X21. No entry is of an earning and of a spending kind at once, and
    the entry that [reverse] returns is of neither: [set_expiry] never
    gives a reversal an expiry, and never raises on one. *)
Theorem reversal_has_no_expiry self admin reason utcnow days now now' :
  (is_earning_transaction self && is_spending_transaction self = false) ∧
  is_earning_transaction (reverse self admin reason utcnow).2 = false ∧
  is_spending_transaction (reverse self admin reason utcnow).2 = false ∧
  set_expiry (reverse self admin reason utcnow).2 days now now'
  = Ok (reverse self admin reason utcnow).2 ∧
  expires_at (reverse self admin reason utcnow).2 = None.
Proof.
  split; [|by repeat split].
  unfold is_earning_transaction, is_spending_transaction.
  by destruct (transaction_type self).
Qed.

(** X22. Reversing the reversal of an entry gives an entry with the
    points of the original, marks the first reversal reversed, and is
    again a completed adjustment with both snapshots 0. *)
Theorem reverse_reverse self admin reason utcnow admin' reason' utcnow' :
  let r1 := (reverse self admin reason utcnow).2 in
  let r1' := (reverse r1 admin' reason' utcnow').1 in
  let r2 := (reverse r1 admin' reason' utcnow').2 in
  points r2 = points self ∧
  status r1' = Some REVERSED ∧ points r1' = - points self ∧
  transaction_type r2 = ADJUSTED ∧ status r2 = Some COMPLETED ∧
  user_id r2 = user_id self ∧
  balance_before r2 = Some 0 ∧ balance_after r2 = Some 0.
Proof. simpl. repeat split. lia. Qed.

(** X23. The two factories ignore the sign of the amount: asked for
    [points] or for [- points] they return the same entry.  The entry
    of the spending factory has points at most 0 and is of a spending
    kind; an entry that the earning factory returns has points at least
    0 and is of an earning kind. *)
Theorem factories_ignore_sign user points source description campaign
    expires_in_days reference_id reference_type utcnow utcnow' :
  create_spending_transaction user (- points) source description
    reference_id reference_type
  = create_spending_transaction user points source description
      reference_id reference_type ∧
  Model.points (create_spending_transaction user points source description
                  reference_id reference_type) ≤ 0 ∧
  is_spending_transaction
    (create_spending_transaction user points source description
       reference_id reference_type) = true ∧
  create_earning_transaction user (- points) source description campaign
    expires_in_days reference_id reference_type utcnow utcnow'
  = create_earning_transaction user points source description campaign
      expires_in_days reference_id reference_type utcnow utcnow' ∧
  (∀ e, create_earning_transaction user points source description campaign
          expires_in_days reference_id reference_type utcnow utcnow' = Ok e →
        0 ≤ Model.points e ∧ is_earning_transaction e = true).
Proof.
  unfold create_spending_transaction, create_earning_transaction.
  rewrite Z.abs_opp. split; [done|]. split; [simpl; lia|].
  split; [done|]. split; [done|].
  intros e. case_bool_decide.
  - unfold set_expiry. rewrite ModelProps.new_earned_is_earning.
    destruct (day_shifted utcnow utcnow' expires_in_days); [|done].
    intros [= <-]. simpl. split; [lia|done].
  - intros [= <-]. simpl. split; [lia|done].
Qed.

End EntityProps.

(** ** The points of the user *)
Module UserProps.
Import UserModel.

(** X24. [deduct_points] answers [True] exactly when the amount is at
    most the available points, and then takes the amount off them;
    otherwise it answers [False] and leaves the user as it is.  It never
    writes the total points, and an amount of 0 or more never takes
    available points that are 0 or more below 0. *)
Theorem deduct_points_guard self amount :
  ((deduct_points self amount).2 = true ↔ amount ≤ available_points self) ∧
  ((deduct_points self amount).2 = true →
   available_points (deduct_points self amount).1
   = available_points self - amount) ∧
  ((deduct_points self amount).2 = false →
   (deduct_points self amount).1 = self) ∧
  total_points (deduct_points self amount).1 = total_points self ∧
  (0 ≤ amount → 0 ≤ available_points self →
   0 ≤ available_points (deduct_points self amount).1).
Proof.
  unfold deduct_points. case_bool_decide; simpl.
  - repeat split; try done; lia.
  - repeat split; try done; lia.
Qed.

(** X25. [add_points] and then [deduct_points] of the same amount, on a
    user whose available points are not negative, succeeds and gives
    back the available points, while the total points stay raised by
    the amount. *)
Theorem add_then_deduct self amount :
  0 ≤ available_points self →
  deduct_points (add_points self amount) amount
  = (mkUser (total_points self + amount) (available_points self), true).
Proof.
  intros Hav. unfold deduct_points, add_points. simpl.
  rewrite bool_decide_eq_true_2 by lia. do 2 f_equal. lia.
Qed.

Lemma add_then_deduct_witness :
  deduct_points (add_points (mkUser 850 650) 100) 100
  = (mkUser (850 + 100) 650, true).
Proof. apply (add_then_deduct (mkUser 850 650) 100). simpl. lia. Defined.

End UserProps.

(** ** The statistics endpoint *)
Module StatsProps.
Import Api.

Lemma weighted_sum_insert {V} (w : V → Z) (m : gmap string V) k v :
  weighted_sum w (<[k:=v]> m)
  = weighted_sum w m - from_option w 0 (m !! k) + w v.
Proof.
  unfold weighted_sum. destruct (m !! k) as [v0|] eqn:E; simpl.
  - rewrite <- insert_delete_eq.
    rewrite map_fold_insert_L; [| intros; lia | apply lookup_delete_eq].
    rewrite (map_fold_delete_L _ _ k v0 m); [lia | intros; lia | done].
  - rewrite map_fold_insert_L; [lia | intros; lia | done].
Qed.

Lemma total_where_cons w P t l :
  total_where w P (t :: l)
  = (if P t then w t else 0) + total_where w P l.
Proof.
  unfold total_where. rewrite filter_cons.
  destruct (decide (P t = true)) as [H|H].
  - by rewrite H.
  - apply not_true_is_false in H. by rewrite H.
Qed.

Lemma total_where_filter w P Q `{!∀ t, Decision (Q t)} l :
  total_where w P (filter Q l)
  = total_where w (λ t, bool_decide (Q t) && P t) l.
Proof.
  induction l as [|t l IH]; [done|].
  rewrite filter_cons. destruct (decide (Q t)) as [HQ|HQ].
  - rewrite !total_where_cons, IH. by rewrite bool_decide_eq_true_2.
  - rewrite total_where_cons, IH. by rewrite bool_decide_eq_false_2.
Qed.

Lemma total_where_ext w w' P P' l :
  (∀ t, P t = P' t) → (∀ t, P t = true → w t = w' t) →
  total_where w P l = total_where w' P' l.
Proof.
  intros HP Hw. induction l as [|t l IH]; [done|].
  rewrite !total_where_cons, IH, <- HP.
  destruct (P t) eqn:E; [by rewrite Hw|done].
Qed.

(** *** The loop over the sources *)

Lemma source_step_lookup acc t k :
  default 0 (source_step acc t !! k)
  = default 0 (acc !! k)
    + (if is_credited t && bool_decide (source t = k) then points t else 0).
Proof.
  unfold source_step. destruct (is_credited t); simpl; [|lia].
  case_bool_decide as Hk.
  - subst k. by rewrite lookup_insert_eq.
  - rewrite lookup_insert_ne by done. lia.
Qed.

Lemma source_step_is_Some acc t k :
  is_Some (source_step acc t !! k) ↔
  is_Some (acc !! k) ∨ is_credited t = true ∧ source t = k.
Proof.
  unfold source_step. destruct (is_credited t); simpl.
  - rewrite lookup_insert_is_Some.
    destruct (decide (source t = k)); intuition congruence.
  - intuition congruence.
Qed.

Lemma source_fold_lookup l acc k :
  default 0 (foldl source_step acc l !! k)
  = default 0 (acc !! k)
    + total_where points
        (λ t, is_credited t && bool_decide (source t = k)) l.
Proof.
  revert acc. induction l as [|t l IH]; intros acc; simpl.
  - unfold total_where. simpl. lia.
  - rewrite IH, source_step_lookup, total_where_cons. lia.
Qed.

Lemma source_fold_is_Some l acc k :
  is_Some (foldl source_step acc l !! k) ↔
  is_Some (acc !! k) ∨ ∃ t, t ∈ l ∧ is_credited t = true ∧ source t = k.
Proof.
  revert acc. induction l as [|t l IH]; intros acc; simpl.
  - split; [auto|]. intros [?|(t & Ht & _)]; [done|].
    by apply elem_of_nil in Ht.
  - rewrite IH, source_step_is_Some. split.
    + intros [[?|[? ?]]|(t' & ? & ? & ?)]; [auto| |].
      * right. exists t. split; [left|done].
      * right. exists t'. split; [by right|done].
    + intros [?|(t' & Ht' & ? & ?)]; [auto|].
      apply elem_of_cons in Ht' as [->|?]; [auto|].
      right. exists t'. auto.
Qed.

Lemma source_fold_sum l acc :
  weighted_sum (λ v, v) (foldl source_step acc l)
  = weighted_sum (λ v, v) acc + total_where points is_credited l.
Proof.
  revert acc. induction l as [|t l IH]; intros acc; simpl.
  - unfold total_where. simpl. lia.
  - rewrite IH, total_where_cons. unfold source_step.
    destruct (is_credited t); [|lia].
    rewrite weighted_sum_insert.
    destruct (acc !! source t); simpl; lia.
Qed.

(** *** The loop over the months *)

Lemma count_month_earned t cur :
  earned (count_month t cur)
  = earned cur + (if is_credited t then points t else 0).
Proof.
  unfold count_month. destruct (is_credited t); simpl; [done|].
  case_bool_decide; simpl; lia.
Qed.

Lemma count_month_used t cur :
  used (count_month t cur)
  = used cur
    + (if negb (is_credited t) && bool_decide (transaction_type t = "used")
       then Z.abs (points t) else 0).
Proof.
  unfold count_month. destruct (is_credited t); simpl; [lia|].
  case_bool_decide; simpl; lia.
Qed.

Section Months.
Variable values : gmap Z Transaction → list Transaction.
Variable month_text : stamp → string.

Lemma monthly_step_lookup acc t k :
  default (mkMonthly 0 0) (monthly_step month_text acc t !! k)
  = if bool_decide (month_text (created_at t) = k)
    then count_month t (default (mkMonthly 0 0) (acc !! k))
    else default (mkMonthly 0 0) (acc !! k).
Proof.
  unfold monthly_step. case_bool_decide as Hk.
  - subst k. by rewrite lookup_insert_eq.
  - by rewrite lookup_insert_ne.
Qed.

Lemma monthly_fold_earned l acc k :
  earned (default (mkMonthly 0 0)
            (foldl (monthly_step month_text) acc l !! k))
  = earned (default (mkMonthly 0 0) (acc !! k))
    + total_where points
        (λ t, is_credited t &&
              bool_decide (month_text (created_at t) = k)) l.
Proof.
  revert acc. induction l as [|t l IH]; intros acc; simpl.
  - unfold total_where. simpl. lia.
  - rewrite IH, monthly_step_lookup, total_where_cons.
    case_bool_decide.
    + rewrite count_month_earned, andb_true_r. lia.
    + rewrite andb_false_r. lia.
Qed.

Lemma monthly_fold_used l acc k :
  used (default (mkMonthly 0 0)
          (foldl (monthly_step month_text) acc l !! k))
  = used (default (mkMonthly 0 0) (acc !! k))
    + total_where (λ t, Z.abs (points t))
        (λ t, negb (is_credited t) &&
              bool_decide (transaction_type t = "used") &&
              bool_decide (month_text (created_at t) = k)) l.
Proof.
  revert acc. induction l as [|t l IH]; intros acc; simpl.
  - unfold total_where. simpl. lia.
  - rewrite IH, monthly_step_lookup, total_where_cons.
    case_bool_decide.
    + rewrite count_month_used, andb_true_r. lia.
    + rewrite andb_false_r. lia.
Qed.

Lemma monthly_fold_is_Some l acc k :
  is_Some (foldl (monthly_step month_text) acc l !! k) ↔
  is_Some (acc !! k) ∨ ∃ t, t ∈ l ∧ month_text (created_at t) = k.
Proof.
  revert acc. induction l as [|t l IH]; intros acc; simpl.
  - split; [auto|]. intros [?|(t & Ht & _)]; [done|].
    by apply elem_of_nil in Ht.
  - rewrite IH. unfold monthly_step. rewrite lookup_insert_is_Some.
    split.
    + intros [[?|[_ ?]]|(t' & ? & ?)]; [|auto|].
      * right. exists t. split; [left|done].
      * right. exists t'. split; [by right|done].
    + intros [?|(t' & Ht' & ?)].
      * left. destruct (decide (month_text (created_at t) = k)); auto.
      * apply elem_of_cons in Ht' as [->|?]; [auto|].
        right. exists t'. auto.
Qed.

Lemma monthly_fold_sum l acc :
  weighted_sum earned (foldl (monthly_step month_text) acc l)
  = weighted_sum earned acc + total_where points is_credited l.
Proof.
  revert acc. induction l as [|t l IH]; intros acc; simpl.
  - unfold total_where. simpl. lia.
  - rewrite IH, total_where_cons. unfold monthly_step.
    rewrite weighted_sum_insert, count_month_earned.
    destruct (acc !! month_text (created_at t)); simpl; lia.
Qed.

(** X26. The totals of the two tables of [get_point_stats] agree: the
    numbers of [source_stats] and the "earned" numbers of
    [monthly_stats] both add up to the points of the caller's
    completed "earned" transactions. *)
Theorem stats_totals_agree u s :
  weighted_sum (λ v, v)
    (source_stats (get_point_stats values month_text u s))
  = total_where points (credited_to u) (values (fake_transactions_db s)) ∧
  weighted_sum earned
    (monthly_stats (get_point_stats values month_text u s))
  = total_where points (credited_to u) (values (fake_transactions_db s)).
Proof.
  unfold get_point_stats. cbn [source_stats monthly_stats].
  rewrite source_fold_sum, monthly_fold_sum.
  rewrite total_where_filter. by split.
Qed.

Hypothesis values_ok : enumerates values.

(** X27. The number that [source_stats] holds for a source is the sum
    of the points of the caller's completed "earned" transactions of
    that source, and a source is in the table exactly when the caller
    has such a transaction. *)
Theorem source_stats_by_source u s k :
  default 0 (source_stats (get_point_stats values month_text u s) !! k)
  = total_where points
      (λ t, credited_to u t && bool_decide (source t = k))
      (values (fake_transactions_db s)) ∧
  (is_Some (source_stats (get_point_stats values month_text u s) !! k) ↔
   ∃ i t, fake_transactions_db s !! i = Some t ∧
          credited_to u t = true ∧ source t = k).
Proof.
  unfold get_point_stats. cbn [source_stats]. split.
  - rewrite source_fold_lookup, lookup_empty, total_where_filter. simpl.
    apply total_where_ext; [|done]. intros t. unfold credited_to.
    by rewrite andb_assoc.
  - rewrite source_fold_is_Some, lookup_empty. unfold credited_to. split.
    + intros [[? [=]]|(t & Ht & Hc & Hk)].
      apply list_elem_of_filter in Ht as [Ho Ht].
      rewrite (values_ok _) in Ht.
      apply QueryProps.elem_of_map_values in Ht as [i Hi].
      exists i, t. rewrite Hc, bool_decide_eq_true_2 by done. auto.
    + intros (i & t & Hi & Hc & Hk). right. exists t.
      apply andb_true_iff in Hc as [Ho Hc].
      apply bool_decide_eq_true in Ho.
      split; [|done]. apply list_elem_of_filter. split; [done|].
      rewrite (values_ok _). apply QueryProps.elem_of_map_values. eauto.
Qed.

(** X28. The entry that [monthly_stats] holds for a month counts, as
    "earned", the points of the caller's completed "earned"
    transactions created in that month and, as "used", the absolute
    points of the caller's "used" transactions created in it; a month
    is in the table exactly when the caller has a transaction created
    in it, whatever its type and status. *)
Theorem monthly_stats_by_month u s k :
  let entry :=
    default (mkMonthly 0 0)
      (monthly_stats (get_point_stats values month_text u s) !! k) in
  earned entry
  = total_where points
      (λ t, credited_to u t && bool_decide (month_text (created_at t) = k))
      (values (fake_transactions_db s)) ∧
  used entry
  = total_where (λ t, Z.abs (points t))
      (λ t, spent_by u t && bool_decide (month_text (created_at t) = k))
      (values (fake_transactions_db s)) ∧
  (is_Some (monthly_stats (get_point_stats values month_text u s) !! k) ↔
   ∃ i t, fake_transactions_db s !! i = Some t ∧
          owner_email t = u ∧ month_text (created_at t) = k).
Proof.
  unfold get_point_stats. cbn [monthly_stats]. split; [|split].
  - rewrite monthly_fold_earned, lookup_empty, total_where_filter. simpl.
    apply total_where_ext; [|done]. intros t. unfold credited_to.
    by rewrite andb_assoc.
  - rewrite monthly_fold_used, lookup_empty, total_where_filter. simpl.
    apply total_where_ext; [|done]. intros t. unfold spent_by.
    by rewrite !andb_assoc.
  - rewrite monthly_fold_is_Some, lookup_empty. split.
    + intros [[? [=]]|(t & Ht & Hk)].
      apply list_elem_of_filter in Ht as [Ho Ht].
      rewrite (values_ok _) in Ht.
      apply QueryProps.elem_of_map_values in Ht as [i Hi].
      exists i, t. auto.
    + intros (i & t & Hi & Ho & Hk). right. exists t.
      split; [|done]. apply list_elem_of_filter. split; [done|].
      rewrite (values_ok _). apply QueryProps.elem_of_map_values. eauto.
Qed.

End Months.

Lemma source_stats_by_source_witness :
  default 0 (source_stats (get_point_stats map_values sample_month
                             "admin@linkplace.com" (initial_store 0))
               !! "review_write")
  = total_where points
      (λ t, credited_to "admin@linkplace.com" t &&
            bool_decide (source t = "review_write"))
      (map_values (fake_transactions_db (initial_store 0))) ∧
  (is_Some (source_stats (get_point_stats map_values sample_month
                            "admin@linkplace.com" (initial_store 0))
              !! "review_write") ↔
   ∃ i t, fake_transactions_db (initial_store 0) !! i = Some t ∧
          credited_to "admin@linkplace.com" t = true ∧
          source t = "review_write").
Proof.
  apply (source_stats_by_source map_values sample_month
           QueryProps.map_values_enumerates "admin@linkplace.com"
           (initial_store 0) "review_write").
Defined.

Lemma monthly_stats_by_month_witness :
  earned (default (mkMonthly 0 0)
            (monthly_stats (get_point_stats map_values sample_month
                              "admin@linkplace.com" (initial_store 0))
               !! "2025-09"))
  = total_where points
      (λ t, credited_to "admin@linkplace.com" t &&
            bool_decide (sample_month (created_at t) = "2025-09"))
      (map_values (fake_transactions_db (initial_store 0))) ∧
  used (default (mkMonthly 0 0)
          (monthly_stats (get_point_stats map_values sample_month
                            "admin@linkplace.com" (initial_store 0))
             !! "2025-09"))
  = total_where (λ t, Z.abs (points t))
      (λ t, spent_by "admin@linkplace.com" t &&
            bool_decide (sample_month (created_at t) = "2025-09"))
      (map_values (fake_transactions_db (initial_store 0))) ∧
  (is_Some (monthly_stats (get_point_stats map_values sample_month
                             "admin@linkplace.com" (initial_store 0))
              !! "2025-09") ↔
   ∃ i t, fake_transactions_db (initial_store 0) !! i = Some t ∧
          owner_email t = "admin@linkplace.com" ∧
          sample_month (created_at t) = "2025-09").
Proof.
  apply (monthly_stats_by_month map_values sample_month
           QueryProps.map_values_enumerates "admin@linkplace.com"
           (initial_store 0) "2025-09").
Defined.

(** The statistics of the administrator in the store as loaded. *)
Example admin_stats :
  source_stats (get_point_stats map_values sample_month
                  "admin@linkplace.com" (initial_store 0)) !! "review_write"
  = Some 500 ∧
  monthly_stats (get_point_stats map_values sample_month
                   "admin@linkplace.com" (initial_store 0)) !! "2025-09"
  = Some (mkMonthly 500 200) ∧
  total_transactions (get_point_stats map_values sample_month
                        "admin@linkplace.com" (initial_store 0)) = 2.
Proof. repeat split; vm_compute; reflexivity. Qed.

End StatsProps.
